(** * DMSApp: session store, API clients and form handlers

    A shallow embedding of the React Native client: the JavaScript values
    the handlers branch on, the device (AsyncStorage, network, alerts,
    console) as explicit state, the [async] functions as computations in
    a state-and-exception monad, and the React state hooks as record
    fields updated by their setters.

    Every [async] handler is run to completion as one step: the client is
    single-threaded and disables the triggering control while a request
    is outstanding. *)

From Stdlib Require Import ZArith Lia Ascii.
From stdpp Require Import base strings gmap list pretty.

Open Scope string_scope.
Open Scope Z_scope.

(** ** JavaScript values *)

(** Values as [JSON.parse] and the React hooks produce them. Numbers are
    the safe integers (of magnitude below 2^53), which a double holds
    exactly and prints digit by digit; objects are association lists in
    key order. *)
#[warnings="-register-all"]
Inductive JsValue : Type :=
  | JUndefined
  | JNull
  | JBool (b : bool)
  | JNum (n : Z)
  | JStr (s : string)
  | JArr (items : list JsValue)
  | JObj (fields : list (string * JsValue)).

(** Thrown values. Everything thrown in this client is an [Error] object
    (or a subclass raised by the runtime); handlers read only [.message]. *)
Inductive ErrorKind : Type := KError | KTypeError | KSyntaxError.

Record JsError : Type := mkError { kind : ErrorKind; message : string }.

Definition Error (msg : string) : JsError := mkError KError msg.
Definition TypeError (msg : string) : JsError := mkError KTypeError msg.

Module Js.

(** [ToBoolean]: what [if (v)], [!v], [a || b] and [a && b] test. *)
Definition truthy (v : JsValue) : bool :=
  match v with
  | JUndefined | JNull => false
  | JBool b => b
  | JNum n => negb (n =? 0)
  | JStr s => negb (String.eqb s "")
  | JArr _ | JObj _ => true
  end.

(** [v == null]: [null] or [undefined], on which a member read throws. *)
Definition nullish (v : JsValue) : bool :=
  match v with
  | JUndefined | JNull => true
  | _ => false
  end.

(** [a || b] *)
Definition or (a b : JsValue) : JsValue := if truthy a then a else b.

(** [a && b] *)
Definition and (a b : JsValue) : JsValue := if truthy a then b else a.

(** Truthiness of a string-typed variable: [!s] is true on [''] only. *)
Definition nonempty (s : string) : bool := negb (String.eqb s "").

(** [s || d] on strings. *)
Definition str_or (s d : string) : string := if nonempty s then s else d.

Fixpoint assoc (k : string) (fields : list (string * JsValue)) : JsValue :=
  match fields with
  | [] => JUndefined
  | (k', v) :: rest => if String.eqb k k' then v else assoc k rest
  end.

(** [ToString], as [new Error(v)] and template literals apply it. *)
Fixpoint toString (v : JsValue) : string :=
  match v with
  | JUndefined => "undefined"
  | JNull => "null"
  | JBool true => "true"
  | JBool false => "false"
  | JNum n => pretty n
  | JStr s => s
  | JArr items =>
      (fix join (l : list JsValue) : string :=
         match l with
         | [] => ""
         | x :: rest =>
             let sx := match x with
                       | JUndefined | JNull => ""
                       | _ => toString x
                       end in
             match rest with
             | [] => sx
             | _ => sx +:+ "," +:+ join rest
             end
         end) items
  | JObj _ => "[object Object]"
  end.

(** [String.prototype.trim] strips white space and line terminators;
    these are the ones among the code units below 256. *)
Definition is_space (c : ascii) : bool :=
  let n := N_of_ascii c in
  ((9 <=? n) && (n <=? 13) || (n =? 32) || (n =? 160))%N.

Fixpoint trimStart (s : string) : string :=
  match s with
  | String c rest => if is_space c then trimStart rest else s
  | EmptyString => EmptyString
  end.

Definition trim (s : string) : string :=
  String.rev (trimStart (String.rev (trimStart s))).

(** [arr.includes(x)] on an array of strings. *)
Definition includes (arr : list string) (x : string) : bool :=
  existsb (String.eqb x) arr.

(** [arr.filter(tag => tag !== x)] *)
Definition without (arr : list string) (x : string) : list string :=
  List.filter (fun tag => negb (String.eqb tag x)) arr.

End Js.

(** ** Dates

    A [Date] is its time value, milliseconds since the epoch.
    [isoDate d] is [d.toISOString().split('T')[0]]. *)
Module JsDate.

Definition msPerDay : Z := 86400000.

(** Proleptic Gregorian (year, month, day) of a day number. *)
Definition civil (days : Z) : Z * Z * Z :=
  let z := days + 719468 in
  let era := z / 146097 in
  let doe := z - era * 146097 in
  let yoe := (doe - doe / 1460 + doe / 36524 - doe / 146096) / 365 in
  let doy := doe - (365 * yoe + yoe / 4 - yoe / 100) in
  let mp := (5 * doy + 2) / 153 in
  let d := doy - (153 * mp + 2) / 5 + 1 in
  let m := if mp <? 10 then mp + 3 else mp - 9 in
  let y := yoe + era * 400 in
  (if m <=? 2 then y + 1 else y, m, d).

(** [String.prototype.padStart(width, '0')] *)
Fixpoint zeros (n : nat) : string :=
  match n with
  | O => ""
  | S k => "0" +:+ zeros k
  end.

Definition pad (width : nat) (s : string) : string :=
  zeros (width - String.length s) +:+ s.

Definition year_text (y : Z) : string :=
  if (0 <=? y) && (y <=? 9999) then pad 4 (pretty y)
  else if y <? 0 then "-" +:+ pad 6 (pretty (- y))
  else "+" +:+ pad 6 (pretty y).

Definition isoDate (ms : Z) : string :=
  let '(y, m, d) := civil (ms / msPerDay) in
  year_text y +:+ "-" +:+ pad 2 (pretty m) +:+ "-" +:+ pad 2 (pretty d).

End JsDate.

(** ** The device and the servers *)

(** [fetch] requests. [JSON.stringify(v)] is kept as the value [v] it
    serialises. *)
Inductive FormPart : Type :=
  | FilePart (uri name type : JsValue)
  | TextPart (json_of : JsValue).

Inductive Body : Type :=
  | FormData (parts : list (string * FormPart))
  | JsonText (json_of : JsValue).

Record Request : Type := mkRequest {
  url : string;
  method : string;
  headers : list (string * JsValue);
  body : Body
}.

(** How a computation ends: [return a] or [throw e]. *)
Inductive Completion (A : Type) : Type :=
  | Return (a : A)
  | Throw (e : JsError).
Arguments Return {A} a.
Arguments Throw {A} e.

(** A [fetch] response: its status and what [response.json()] settles to
    (a rejection when the body is not JSON text). *)
Record Response : Type := mkResponse {
  status : Z;
  json : Completion JsValue
}.

(** [response.ok] *)
Definition ok (r : Response) : bool := (200 <=? status r) && (status r <=? 299).

Inductive StorageOp : Type :=
  | GetItem (key : string)
  | SetItem (key : string) (value : JsValue)
  | RemoveItem (key : string)
  .

(** What the handlers cannot control: the answer of the remote API to a
    request (or the rejection of [fetch]), whether a storage operation
    is rejected, and the clock read by [new Date()]. *)
Record Env : Type := mkEnv {
  server : Request -> Completion Response;
  storage_fault : StorageOp -> option JsError;
  now : Z
}.

(** ** React state *)

(** [AuthProvider]: [userToken] and [isLoading]. *)
Module Session.
Record State : Type := mk { userToken : JsValue; isLoading : bool }.
(** [useState(null)], [useState(true)] *)
Definition initial : State := mk JNull true.
End Session.

Module LoginForm.
Record State : Type := mk {
  mobileNumber : string;
  otp : string;
  otpSent : bool;
  loading : bool
}.
Definition initial : State := mk "" "" false false.
End LoginForm.

Module UploadForm.
Record State : Type := mk {
  documentDate : Z;
  majorHead : string;
  minorHead : string;
  remarks : string;
  tags : list string;
  newTag : string;
  availableTags : list string;
  selectedFile : JsValue;
  loading : bool
}.
Definition initial (today : Z) : State := mk today "" "" "" [] "" [] JNull false.
End UploadForm.

Module SearchForm.
Record State : Type := mk {
  majorHead : string;
  minorHead : string;
  tags : list string;
  newTag : string;
  availableTags : list string;
  fromDate : option Z;
  toDate : option Z;
  searchResults : list JsValue;
  loading : bool
}.
Definition initial : State := mk "" "" [] "" [] None None [] false.
End SearchForm.

(** The running application: the device-local store behind
    [AsyncStorage], the requests issued so far, the console and alert
    output (oldest first), and the state of each mounted component. *)
Record App : Type := mkApp {
  disk : gmap string string;
  network : list Request;
  console : list (string * JsError);
  alerts : list (string * JsValue);
  auth : Session.State;
  login : LoginForm.State;
  upload : UploadForm.State;
  search : SearchForm.State
}.

Definition with_disk (f : gmap string string -> gmap string string) (a : App) : App :=
  mkApp (f (disk a)) (network a) (console a) (alerts a) (auth a) (login a) (upload a) (search a).
Definition with_network (f : list Request -> list Request) (a : App) : App :=
  mkApp (disk a) (f (network a)) (console a) (alerts a) (auth a) (login a) (upload a) (search a).
Definition with_console (f : list (string * JsError) -> list (string * JsError)) (a : App) : App :=
  mkApp (disk a) (network a) (f (console a)) (alerts a) (auth a) (login a) (upload a) (search a).
Definition with_alerts (f : list (string * JsValue) -> list (string * JsValue)) (a : App) : App :=
  mkApp (disk a) (network a) (console a) (f (alerts a)) (auth a) (login a) (upload a) (search a).
Definition with_auth (f : Session.State -> Session.State) (a : App) : App :=
  mkApp (disk a) (network a) (console a) (alerts a) (f (auth a)) (login a) (upload a) (search a).
Definition with_login (f : LoginForm.State -> LoginForm.State) (a : App) : App :=
  mkApp (disk a) (network a) (console a) (alerts a) (auth a) (f (login a)) (upload a) (search a).
Definition with_upload (f : UploadForm.State -> UploadForm.State) (a : App) : App :=
  mkApp (disk a) (network a) (console a) (alerts a) (auth a) (login a) (f (upload a)) (search a).
Definition with_search (f : SearchForm.State -> SearchForm.State) (a : App) : App :=
  mkApp (disk a) (network a) (console a) (alerts a) (auth a) (login a) (upload a) (f (search a)).

(** ** Computations *)

(** An [async] function body: reads the environment, updates the
    application, and returns or throws. *)
Definition M (A : Type) : Type := Env -> App -> Completion A * App.

#[global] Instance M_ret : MRet M := fun A x _ a => (Return x, a).

#[global] Instance M_bind : MBind M := fun A B k m env a =>
  match m env a with
  | (Return x, a') => k x env a'
  | (Throw e, a') => (Throw e, a')
  end.

#[global] Instance M_throw : MThrow JsError M := fun A e _ a => (Throw e, a).

(** [try { body } catch (error) { handler error }] *)
Definition try_catch {A} (body : M A) (handler : JsError -> M A) : M A :=
  fun env a =>
    match body env a with
    | (Return x, a') => (Return x, a')
    | (Throw e, a') => handler e env a'
    end.

(** [try { body } finally { cleanup }] *)
Definition try_finally {A} (body : M A) (cleanup : M unit) : M A :=
  fun env a =>
    let '(r, a') := body env a in
    match cleanup env a' with
    | (Return _, a'') => (r, a'')
    | (Throw e, a'') => (Throw e, a'')
    end.

Definition read {A} (f : App -> A) : M A := fun _ a => (Return (f a), a).
Definition update (f : App -> App) : M unit := fun _ a => (Return tt, f a).
Definition ask {A} (f : Env -> A) : M A := fun env a => (Return (f env), a).

(** Final application state and completion of a handler. *)
Definition exec {A} (m : M A) (env : Env) (a : App) : App := snd (m env a).
Definition outcome {A} (m : M A) (env : Env) (a : App) : Completion A := fst (m env a).

(** [v.k] for the data properties read in this client ([message],
    [success], [token], [data], [uri], [name], [type]): the member of an
    object, [undefined] on other non-nullish values, a [TypeError] on
    [null] and [undefined]. *)
Definition prop (v : JsValue) (k : string) : M JsValue :=
  match v with
  | JUndefined | JNull =>
      mthrow (TypeError ("Cannot read property '" +:+ k +:+ "' of " +:+ Js.toString v))
  | JObj fields => mret (Js.assoc k fields)
  | _ => mret JUndefined
  end.

(** [console.error(label, e)] *)
Definition console_error (label : string) (e : JsError) : M unit :=
  update (with_console (fun l => (l ++ [(label, e)])%list)).

(** [Alert.alert(title, text)] *)
Definition Alert_alert (title : string) (text : JsValue) : M unit :=
  update (with_alerts (fun l => (l ++ [(title, text)])%list)).

(** [fetch(url, init)]: the request goes out, then the promise settles
    as the environment decides. *)
Definition fetch (req : Request) : M Response :=
  update (with_network (fun l => (l ++ [req])%list)) ;;
  r ← ask (fun env => server env req);
  match r with
  | Return resp => mret resp
  | Throw e => mthrow e
  end.

(** [await response.json()] *)
Definition response_json (r : Response) : M JsValue :=
  match json r with
  | Return v => mret v
  | Throw e => mthrow e
  end.

(** [AsyncStorage]: a string-to-string store. An operation the
    environment faults is rejected and leaves the store as it was; the
    store holds strings only, so a value that is not one is rejected too. *)
Module AsyncStorage.

(** What the wrapper of the native module resolves a read to,
    [value ? value : null]: an absent key and a stored empty string
    both read back as [null]. *)
Definition read_back (stored : option string) : JsValue :=
  match stored with
  | Some s => if Js.nonempty s then JStr s else JNull
  | None => JNull
  end.

Definition getItem (key : string) : M JsValue :=
  fault ← ask (fun env => storage_fault env (GetItem key));
  match fault with
  | Some e => mthrow e
  | None =>
      stored ← read (fun a => disk a !! key);
      mret (read_back stored)
  end.

Definition setItem (key : string) (value : JsValue) : M unit :=
  fault ← ask (fun env => storage_fault env (SetItem key value));
  match fault, value with
  | Some e, _ => mthrow e
  | None, JStr s => update (with_disk (insert key s))
  | None, _ => mthrow (Error "[AsyncStorage] The value is not a string.")
  end.

Definition removeItem (key : string) : M unit :=
  fault ← ask (fun env => storage_fault env (RemoveItem key));
  match fault with
  | Some e => mthrow e
  | None => update (with_disk (delete key))
  end.

End AsyncStorage.

(** ** services/DocumentService.js *)
Module DocumentService.

Definition API_BASE_URL : string := "https://apis.allsoft.co/api/documentManagement".

Definition missing_session : JsError :=
  Error "Authentication token not found. Please log in again.".

Definition getUserToken : M JsValue :=
  userToken ← AsyncStorage.getItem "userToken";
  if negb (Js.truthy userToken) then mthrow missing_session
  else mret userToken.

(** [new Error(data.message || `API error: ${response.status}`)] *)
Definition api_error (data : JsValue) (response : Response) : M JsError :=
  msg ← prop data "message";
  mret (Error (Js.toString (Js.or msg (JStr ("API error: " +:+ pretty (status response)))))).

Definition uploadDocument (fileUri fileName fileType documentData : JsValue) : M JsValue :=
  try_catch
    (userToken ← getUserToken;
     let formData := [("file", FilePart fileUri fileName fileType);
                      ("data", TextPart documentData)] in
     response ← fetch (mkRequest (API_BASE_URL +:+ "/saveDocumentEntry") "POST"
                         [("token", userToken)]
                         (FormData formData));
     data ← response_json response;
     if negb (ok response) then (e ← api_error data response; mthrow e)
     else mret data)
    (fun error => console_error "Error uploading document:" error ;; mthrow error).

(** The default parameter [term = '']: it stands in for an argument
    that is [undefined]. *)
Definition default_term (term : JsValue) : JsValue :=
  match term with
  | JUndefined => JStr ""
  | _ => term
  end.

Definition fetchDocumentTags (term : JsValue) : M JsValue :=
  try_catch
    (userToken ← getUserToken;
     response ← fetch (mkRequest (API_BASE_URL +:+ "/documentTags") "POST"
                         [("token", userToken); ("Content-Type", JStr "application/json")]
                         (JsonText (JObj [("term", default_term term)])));
     data ← response_json response;
     if negb (ok response) then (e ← api_error data response; mthrow e)
     else mret data)
    (fun error => console_error "Error fetching document tags:" error ;; mthrow error).

Definition searchDocuments (searchCriteria : JsValue) : M JsValue :=
  try_catch
    (userToken ← getUserToken;
     response ← fetch (mkRequest (API_BASE_URL +:+ "/searchDocumentEntry") "POST"
                         [("token", userToken); ("Content-Type", JStr "application/json")]
                         (JsonText searchCriteria));
     data ← response_json response;
     if negb (ok response) then (e ← api_error data response; mthrow e)
     else mret data)
    (fun error => console_error "Error searching documents:" error ;; mthrow error).

End DocumentService.

(** ** services/AuthService.js *)
Module AuthService.

Definition API_BASE_URL : string := "https://apis.allsoft.co/api/documentManagement".

Definition generateOTP (mobileNumber : string) : M JsValue :=
  try_catch
    (response ← fetch (mkRequest (API_BASE_URL +:+ "/generateOTP") "POST"
                         [("Content-Type", JStr "application/json")]
                         (JsonText (JObj [("mobile_number", JStr mobileNumber)])));
     response_json response)
    (fun error =>
       console_error "Error generating OTP:" error ;;
       mthrow (Error "Network error or failed to generate OTP. Please check your connection.")).

Definition validateOTP (mobileNumber otp : string) : M JsValue :=
  try_catch
    (response ← fetch (mkRequest (API_BASE_URL +:+ "/validateOTP") "POST"
                         [("Content-Type", JStr "application/json")]
                         (JsonText (JObj [("mobile_number", JStr mobileNumber);
                                          ("otp", JStr otp)])));
     response_json response)
    (fun error =>
       console_error "Error validating OTP:" error ;;
       mthrow (Error "Network error or failed to validate OTP. Please try again.")).

End AuthService.

(** ** context/AuthContext.js *)
Module AuthContext.

Definition setUserToken (v : JsValue) : M unit :=
  update (with_auth (fun s => Session.mk v (Session.isLoading s))).

Definition setIsLoading (b : bool) : M unit :=
  update (with_auth (fun s => Session.mk (Session.userToken s) b)).

(** The mount effect of [AuthProvider]. *)
Definition loadToken : M unit :=
  try_finally
    (try_catch
       (token ← AsyncStorage.getItem "userToken";
        setUserToken token)
       (fun e => console_error "Failed to load token from AsyncStorage:" e))
    (setIsLoading false).

Definition signIn (token : JsValue) : M unit :=
  try_catch
    (AsyncStorage.setItem "userToken" token ;;
     setUserToken token)
    (fun e => console_error "Failed to save token to AsyncStorage:" e).

Definition signOut : M unit :=
  try_catch
    (AsyncStorage.removeItem "userToken" ;;
     setUserToken JNull)
    (fun e => console_error "Failed to remove token from AsyncStorage:" e).

End AuthContext.

(** ** App.js: the navigation shell *)

(** What [AppContent] renders: the activity indicator alone, the stack of
    main screens, or the stack holding only the login screen. *)
Inductive Shell : Type := Loading | Authenticated | Unauthenticated.

Definition AppContent (s : Session.State) : Shell :=
  if Session.isLoading s then Loading
  else if Js.truthy (Session.userToken s) then Authenticated
  else Unauthenticated.

(** The [Stack.Screen] names mounted in each case. *)
Definition screens (sh : Shell) : list string :=
  match sh with
  | Loading => []
  | Authenticated => ["Home"; "Upload"; "Search"; "Preview"]
  | Unauthenticated => ["Login"]
  end.

(** The shell shown by the running application. *)
Definition shell (a : App) : Shell := AppContent (auth a).

(** ** screens/LoginScreen.js *)
Module LoginScreen.
Import LoginForm.

Definition setOtpSent (b : bool) : M unit :=
  update (with_login (fun s => mk (mobileNumber s) (otp s) b (loading s))).
Definition setLoading (b : bool) : M unit :=
  update (with_login (fun s => mk (mobileNumber s) (otp s) (otpSent s) b)).
Definition setMobileNumber (v : string) : M unit :=
  update (with_login (fun s => mk v (otp s) (otpSent s) (loading s))).
Definition setOtp (v : string) : M unit :=
  update (with_login (fun s => mk (mobileNumber s) v (otpSent s) (loading s))).

Definition handleGenerateOtp : M unit :=
  s ← read login;
  if negb (Js.nonempty (mobileNumber s)) then
    Alert_alert "Input Error" (JStr "Please enter your mobile number.")
  else
    setLoading true ;;
    try_finally
      (try_catch
         (response ← AuthService.generateOTP (mobileNumber s);
          success ← prop response "success";
          if Js.truthy success then
            setOtpSent true ;;
            Alert_alert "Success" (JStr "OTP sent to your mobile number!")
          else
            msg ← prop response "message";
            Alert_alert "Error" (Js.or msg (JStr "Failed to send OTP. Please try again.")))
         (fun error =>
            Alert_alert "Error"
              (JStr (Js.str_or (message error) "Something went wrong. Please try again."))))
      (setLoading false).

Definition handleValidateOtp : M unit :=
  s ← read login;
  if negb (Js.nonempty (mobileNumber s)) || negb (Js.nonempty (otp s)) then
    Alert_alert "Input Error" (JStr "Please enter both mobile number and OTP.")
  else
    setLoading true ;;
    try_finally
      (try_catch
         (response ← AuthService.validateOTP (mobileNumber s) (otp s);
          (* response.success && response.token *)
          success ← prop response "success";
          cond ← (if Js.truthy success then prop response "token" else mret success);
          if Js.truthy cond then
            token ← prop response "token";
            AuthContext.signIn token ;;
            Alert_alert "Success" (JStr "Login successful!")
          else
            msg ← prop response "message";
            Alert_alert "Error" (Js.or msg (JStr "Invalid OTP. Please try again.")))
         (fun error =>
            Alert_alert "Error"
              (JStr (Js.str_or (message error) "Something went wrong. Please try again."))))
      (setLoading false).

End LoginScreen.

(** [tags.map(tag => ({ tag_name: tag }))] *)
Definition formattedTags (tags : list string) : JsValue :=
  JArr (map (fun tag => JObj [("tag_name", JStr tag)]) tags).

(** The options offered by the minor-head picker under each major head. *)
Definition minorHeadOptions (majorHead : string) : list string :=
  if String.eqb majorHead "Personal" then ["John"; "Tom"; "Emily"; "Sarah"; "David"]
  else if String.eqb majorHead "Professional" then
    ["Accounts"; "HR"; "IT"; "Finance"; "Marketing"; "Operations"]
  else [].

(** ** screens/UploadScreen.js *)
Module UploadScreen.
Import UploadForm.

Definition setDocumentDate (v : Z) : M unit :=
  update (with_upload (fun s =>
    mk v (majorHead s) (minorHead s) (remarks s) (tags s) (newTag s)
       (availableTags s) (selectedFile s) (loading s))).
Definition setMajorHead (v : string) : M unit :=
  update (with_upload (fun s =>
    mk (documentDate s) v (minorHead s) (remarks s) (tags s) (newTag s)
       (availableTags s) (selectedFile s) (loading s))).
Definition setMinorHead (v : string) : M unit :=
  update (with_upload (fun s =>
    mk (documentDate s) (majorHead s) v (remarks s) (tags s) (newTag s)
       (availableTags s) (selectedFile s) (loading s))).
Definition setRemarks (v : string) : M unit :=
  update (with_upload (fun s =>
    mk (documentDate s) (majorHead s) (minorHead s) v (tags s) (newTag s)
       (availableTags s) (selectedFile s) (loading s))).
Definition setTags (v : list string) : M unit :=
  update (with_upload (fun s =>
    mk (documentDate s) (majorHead s) (minorHead s) (remarks s) v (newTag s)
       (availableTags s) (selectedFile s) (loading s))).
Definition setNewTag (v : string) : M unit :=
  update (with_upload (fun s =>
    mk (documentDate s) (majorHead s) (minorHead s) (remarks s) (tags s) v
       (availableTags s) (selectedFile s) (loading s))).
Definition setSelectedFile (v : JsValue) : M unit :=
  update (with_upload (fun s =>
    mk (documentDate s) (majorHead s) (minorHead s) (remarks s) (tags s) (newTag s)
       (availableTags s) v (loading s))).
Definition setLoading (v : bool) : M unit :=
  update (with_upload (fun s =>
    mk (documentDate s) (majorHead s) (minorHead s) (remarks s) (tags s) (newTag s)
       (availableTags s) (selectedFile s) v)).

Definition handleAddTag : M unit :=
  s ← read upload;
  let trimmedTag := Js.trim (newTag s) in
  if Js.nonempty trimmedTag && negb (Js.includes (tags s) trimmedTag) then
    setTags (tags s ++ [trimmedTag])%list ;;
    setNewTag ""
  else mret tt.

Definition handleRemoveTag (tagToRemove : string) : M unit :=
  s ← read upload;
  setTags (Js.without (tags s) tagToRemove).

(** [onPress] of a suggested-tag chip. *)
Definition suggestedTag_onPress (tag : string) : M unit :=
  s ← read upload;
  if negb (Js.includes (tags s) tag) then setTags (tags s ++ [tag])%list
  else mret tt.

(** [onValueChange] of the major-head picker. *)
Definition majorHead_onValueChange (itemValue : string) : M unit :=
  setMajorHead itemValue ;;
  setMinorHead "".

(** [onValueChange] of the minor-head picker. *)
Definition minorHead_onValueChange (itemValue : string) : M unit :=
  setMinorHead itemValue.

Definition handleSubmit : M unit :=
  s ← read upload;
  if negb (Js.truthy (selectedFile s)) then
    Alert_alert "Validation Error" (JStr "Please select a file to upload.")
  else if negb (Js.nonempty (majorHead s)) || negb (Js.nonempty (minorHead s)) then
    Alert_alert "Validation Error" (JStr "Please select both Major Head and Minor Head.")
  else if (length (tags s) =? 0)%nat then
    Alert_alert "Validation Error" (JStr "Please add at least one tag.")
  else
    setLoading true ;;
    let documentData :=
      JObj [("major_head", JStr (majorHead s));
            ("minor_head", JStr (minorHead s));
            ("document_date", JStr (JsDate.isoDate (documentDate s)));
            ("document_remarks", JStr (remarks s));
            ("tags", formattedTags (tags s));
            ("user_id", JStr "example_user_id")] in
    try_finally
      (try_catch
         (uri ← prop (selectedFile s) "uri";
          name ← prop (selectedFile s) "name";
          type ← prop (selectedFile s) "type";
          response ← DocumentService.uploadDocument uri name type documentData;
          success ← prop response "success";
          if Js.truthy success then
            Alert_alert "Success" (JStr "Document uploaded successfully!") ;;
            today ← ask now;
            setDocumentDate today ;;
            setMajorHead "" ;;
            setMinorHead "" ;;
            setRemarks "" ;;
            setTags [] ;;
            setNewTag "" ;;
            setSelectedFile JNull
          else
            msg ← prop response "message";
            Alert_alert "Upload Error" (Js.or msg (JStr "Failed to upload document.")))
         (fun error =>
            Alert_alert "Upload Failed"
              (JStr (Js.str_or (message error)
                               "An unexpected error occurred during upload."))))
      (setLoading false).

End UploadScreen.

(** ** screens/SearchScreen.js *)
Module SearchScreen.
Import SearchForm.

Definition setMajorHead (v : string) : M unit :=
  update (with_search (fun s =>
    mk v (minorHead s) (tags s) (newTag s) (availableTags s)
       (fromDate s) (toDate s) (searchResults s) (loading s))).
Definition setMinorHead (v : string) : M unit :=
  update (with_search (fun s =>
    mk (majorHead s) v (tags s) (newTag s) (availableTags s)
       (fromDate s) (toDate s) (searchResults s) (loading s))).
Definition setTags (v : list string) : M unit :=
  update (with_search (fun s =>
    mk (majorHead s) (minorHead s) v (newTag s) (availableTags s)
       (fromDate s) (toDate s) (searchResults s) (loading s))).
Definition setNewTag (v : string) : M unit :=
  update (with_search (fun s =>
    mk (majorHead s) (minorHead s) (tags s) v (availableTags s)
       (fromDate s) (toDate s) (searchResults s) (loading s))).
Definition setSearchResults (v : list JsValue) : M unit :=
  update (with_search (fun s =>
    mk (majorHead s) (minorHead s) (tags s) (newTag s) (availableTags s)
       (fromDate s) (toDate s) v (loading s))).
Definition setLoading (v : bool) : M unit :=
  update (with_search (fun s =>
    mk (majorHead s) (minorHead s) (tags s) (newTag s) (availableTags s)
       (fromDate s) (toDate s) (searchResults s) v)).

Definition handleAddTag : M unit :=
  s ← read search;
  let trimmedTag := Js.trim (newTag s) in
  if Js.nonempty trimmedTag && negb (Js.includes (tags s) trimmedTag) then
    setTags (tags s ++ [trimmedTag])%list ;;
    setNewTag ""
  else mret tt.

Definition handleRemoveTag (tagToRemove : string) : M unit :=
  s ← read search;
  setTags (Js.without (tags s) tagToRemove).

(** [onPress] of a suggested-tag chip. *)
Definition suggestedTag_onPress (tag : string) : M unit :=
  s ← read search;
  if negb (Js.includes (tags s) tag) then setTags (tags s ++ [tag])%list
  else mret tt.

(** [onValueChange] of the major-head picker: [setMajorHead] itself. *)
Definition majorHead_onValueChange (itemValue : string) : M unit :=
  setMajorHead itemValue.

(** [onValueChange] of the minor-head picker. *)
Definition minorHead_onValueChange (itemValue : string) : M unit :=
  setMinorHead itemValue.

(** [d ? d.toISOString().split('T')[0] : ''] *)
Definition date_filter (d : option Z) : string :=
  match d with
  | Some ms => JsDate.isoDate ms
  | None => ""
  end.

Definition handleSearch : M unit :=
  s ← read search;
  setLoading true ;;
  let searchCriteria :=
    JObj [("major_head", JStr (majorHead s));
          ("minor_head", JStr (minorHead s));
          ("from_date", JStr (date_filter (fromDate s)));
          ("to_date", JStr (date_filter (toDate s)));
          ("tags", formattedTags (tags s));
          ("uploaded_by", JStr "");
          ("start", JNum 0);
          ("length", JNum 10);
          ("filterId", JStr "");
          ("search", JObj [("value", JStr "")])] in
  try_finally
    (try_catch
       (results ← DocumentService.searchDocuments searchCriteria;
        (* results.success && Array.isArray(results.data) *)
        success ← prop results "success";
        data ← prop results "data";
        match Js.truthy success, data with
        | true, JArr items =>
            setSearchResults items ;;
            if (length items =? 0)%nat then
              Alert_alert "No Results" (JStr "No documents found matching your criteria.")
            else mret tt
        | _, _ =>
            msg ← prop results "message";
            Alert_alert "Search Error" (Js.or msg (JStr "Failed to search documents.")) ;;
            setSearchResults []
        end)
       (fun error =>
          Alert_alert "Search Failed"
            (JStr (Js.str_or (message error)
                             "An unexpected error occurred during search.")) ;;
          setSearchResults []))
    (setLoading false).

End SearchScreen.

(** ** The three document API operations, as one family *)

Inductive DocumentCall : Type :=
  | CreateDocument (fileUri fileName fileType documentData : JsValue)
  | ListTags (term : JsValue)
  | SearchDocuments (searchCriteria : JsValue).

Definition invoke (c : DocumentCall) : M JsValue :=
  match c with
  | CreateDocument uri name type data => DocumentService.uploadDocument uri name type data
  | ListTags term => DocumentService.fetchDocumentTags term
  | SearchDocuments criteria => DocumentService.searchDocuments criteria
  end.

(** The request a call sends once it holds the token. *)
Definition request_of (c : DocumentCall) (userToken : JsValue) : Request :=
  match c with
  | CreateDocument uri name type data =>
      mkRequest (DocumentService.API_BASE_URL +:+ "/saveDocumentEntry") "POST"
        [("token", userToken)]
        (FormData [("file", FilePart uri name type); ("data", TextPart data)])
  | ListTags term =>
      mkRequest (DocumentService.API_BASE_URL +:+ "/documentTags") "POST"
        [("token", userToken); ("Content-Type", JStr "application/json")]
        (JsonText (JObj [("term", DocumentService.default_term term)]))
  | SearchDocuments criteria =>
      mkRequest (DocumentService.API_BASE_URL +:+ "/searchDocumentEntry") "POST"
        [("token", userToken); ("Content-Type", JStr "application/json")]
        (JsonText criteria)
  end.

(** [v.k] as a value, for [v] known not to be [null] or [undefined]. *)
Definition member (k : string) (v : JsValue) : JsValue :=
  match v with
  | JObj fields => Js.assoc k fields
  | _ => JUndefined
  end.

(** The process at start-up over a given device store: every hook at its
    initial value, nothing sent or shown yet. *)
Definition launch (store : gmap string string) (today : Z) : App :=
  mkApp store [] [] [] Session.initial LoginForm.initial
        (UploadForm.initial today) SearchForm.initial.

(** ** The session over time *)

(** What can happen to the session holder after the process starts: the
    mount effect's token load resolves, or a screen calls [signIn] or
    [signOut]. *)
Inductive SessionEvent : Type :=
  | LoadResolves
  | SignIn (token : JsValue)
  | SignOut.

Definition handle (ev : SessionEvent) : M unit :=
  match ev with
  | LoadResolves => AuthContext.loadToken
  | SignIn token => AuthContext.signIn token
  | SignOut => AuthContext.signOut
  end.

Fixpoint replay (env : Env) (events : list SessionEvent) (a : App) : App :=
  match events with
  | [] => a
  | ev :: rest => replay env rest (exec (handle ev) env a)
  end.

Definition is_load (ev : SessionEvent) : bool :=
  match ev with
  | LoadResolves => true
  | _ => false
  end.

Definition load_resolved (events : list SessionEvent) : bool := existsb is_load events.

(** What the session token is once the initial load has resolved: what
    the read of the store resolved to, or, on a rejected read, the
    initial [null] the state keeps. *)
Definition loaded_token (env : Env) (store : gmap string string) : JsValue :=
  match storage_fault env (GetItem "userToken") with
  | None => AsyncStorage.read_back (store !! "userToken")
  | Some _ => JNull
  end.

(** The request [validateOTP] sends for a login form. *)
Definition validate_request (s : LoginForm.State) : Request :=
  mkRequest (AuthService.API_BASE_URL +:+ "/validateOTP") "POST"
    [("Content-Type", JStr "application/json")]
    (JsonText (JObj [("mobile_number", JStr (LoginForm.mobileNumber s));
                     ("otp", JStr (LoginForm.otp s))])).

(** ** Sample environments *)

(** A device whose storage works, talking to a server that answers
    every request with [resp]. *)
Definition answering (resp : Response) : Env :=
  mkEnv (fun _ => Return resp) (fun _ => None) 1700000000000.

(** A device whose storage rejects every operation with [e]. *)
Definition broken_storage (e : JsError) : Env :=
  mkEnv (fun _ => Throw (TypeError "Network request failed")) (fun _ => Some e) 1700000000000.

Definition json_response (code : Z) (data : JsValue) : Response :=
  mkResponse code (Return data).

(** A gateway error page: the body is HTML, so [response.json()] rejects. *)
Definition html_parse_error : JsError :=
  mkError KSyntaxError "JSON Parse error: Unexpected token: <".
Definition bad_gateway : Response := mkResponse 502 (Throw html_parse_error).

Definition signed_in (token : string) : App :=
  with_auth (fun _ => Session.mk (JStr token) false)
            (launch {[ "userToken" := token ]} 1700000000000).

Definition signed_out : App :=
  with_auth (fun _ => Session.mk JNull false) (launch ∅ 1700000000000).

(** A search form on which "Personal" / "Tom" has been picked. *)
Definition search_personal_tom : App :=
  with_search (fun _ => SearchForm.mk "Personal" "Tom" [] "" [] None None [] false)
              (signed_in "abc").

(** An upload form filled in as in the end-to-end scenario: a picked
    file, "Personal" / "Tom", one tag "invoice". *)
Definition scan_pdf : JsValue :=
  JObj [("uri", JStr "file:///scan.pdf"); ("name", JStr "scan.pdf");
        ("type", JStr "application/pdf")].

Definition upload_filled : App :=
  with_upload (fun _ => UploadForm.mk 1700000000000 "Personal" "Tom" "March invoice"
                                      ["invoice"] "" [] scan_pdf false)
              (signed_in "abc").

(** The guards of [handleSubmit]: a file, both heads and one tag. *)
Definition submittable (s : UploadForm.State) : bool :=
  Js.truthy (UploadForm.selectedFile s)
  && Js.nonempty (UploadForm.majorHead s)
  && Js.nonempty (UploadForm.minorHead s)
  && negb (length (UploadForm.tags s) =? 0)%nat.

(** The document call [handleSubmit] makes for a form. *)
Definition upload_call (s : UploadForm.State) : DocumentCall :=
  CreateDocument
    (member "uri" (UploadForm.selectedFile s))
    (member "name" (UploadForm.selectedFile s))
    (member "type" (UploadForm.selectedFile s))
    (JObj [("major_head", JStr (UploadForm.majorHead s));
           ("minor_head", JStr (UploadForm.minorHead s));
           ("document_date", JStr (JsDate.isoDate (UploadForm.documentDate s)));
           ("document_remarks", JStr (UploadForm.remarks s));
           ("tags", formattedTags (UploadForm.tags s));
           ("user_id", JStr "example_user_id")]).

(** The fields of the upload form the user fills in. *)
Definition form_fields (s : UploadForm.State)
  : Z * string * string * string * list string * string * JsValue :=
  (UploadForm.documentDate s, UploadForm.majorHead s, UploadForm.minorHead s,
   UploadForm.remarks s, UploadForm.tags s, UploadForm.newTag s,
   UploadForm.selectedFile s).

(** The same upload form with " invoice " typed into the tag input. *)
Definition upload_retyping_invoice : App :=
  with_upload (fun _ => UploadForm.mk 1700000000000 "Personal" "Tom" "March invoice"
                                      ["invoice"] " invoice " [] scan_pdf false)
              (signed_in "abc").

(** A search form with the tag "invoice" selected and also suggested. *)
Definition search_with_invoice : App :=
  with_search (fun _ => SearchForm.mk "" "" ["invoice"] "" ["invoice"; "2024"]
                                      None None [] false)
              (signed_in "abc").

(** The login form of the end-to-end scenario, code entered. *)
Definition login_filled : App :=
  with_login (fun _ => LoginForm.mk "9999999999" "123456" true false) signed_out.

(** ** Further vocabulary for the properties *)

(** The label each document call logs its fault under. *)
Definition log_label (c : DocumentCall) : string :=
  match c with
  | CreateDocument _ _ _ _ => "Error uploading document:"
  | ListTags _ => "Error fetching document tags:"
  | SearchDocuments _ => "Error searching documents:"
  end.

(** What [AsyncStorage.getItem('userToken')] resolves to on a store. *)
Definition stored_token (store : gmap string string) : JsValue :=
  AsyncStorage.read_back (store !! "userToken").

(** The request [generateOTP] sends for a login form. *)
Definition generate_request (s : LoginForm.State) : Request :=
  mkRequest (AuthService.API_BASE_URL +:+ "/generateOTP") "POST"
    [("Content-Type", JStr "application/json")]
    (JsonText (JObj [("mobile_number", JStr (LoginForm.mobileNumber s))])).

(** The decoded body of the answer to a request, if there is one. *)
Definition decoded_answer (env : Env) (req : Request) : option JsValue :=
  match server env req with
  | Return resp =>
      match json resp with
      | Return data => Some data
      | Throw _ => None
      end
  | Throw _ => None
  end.

(** Whether a request is answered by a decoded body whose [success]
    is truthy. *)
Definition accepted (env : Env) (req : Request) : bool :=
  match decoded_answer env req with
  | Some data => Js.truthy (member "success" data)
  | None => false
  end.

(** The in-memory session token agrees with the device store: the store
    reads back as the session token when that is truthy, and as no
    token when it is not. *)
Definition mirrors_store (a : App) : Prop :=
  stored_token (disk a)
  = if Js.truthy (Session.userToken (auth a)) then Session.userToken (auth a) else JNull.

(** A sign-in as the login screen makes it: with a truthy token. *)
Definition signs_in_truthy (ev : SessionEvent) : bool :=
  match ev with
  | SignIn token => Js.truthy token
  | _ => true
  end.

(** The document call [handleSearch] makes for a form. *)
Definition search_call (s : SearchForm.State) : DocumentCall :=
  SearchDocuments
    (JObj [("major_head", JStr (SearchForm.majorHead s));
           ("minor_head", JStr (SearchForm.minorHead s));
           ("from_date", JStr (SearchScreen.date_filter (SearchForm.fromDate s)));
           ("to_date", JStr (SearchScreen.date_filter (SearchForm.toDate s)));
           ("tags", formattedTags (SearchForm.tags s));
           ("uploaded_by", JStr "");
           ("start", JNum 0);
           ("length", JNum 10);
           ("filterId", JStr "");
           ("search", JObj [("value", JStr "")])]).

(** The filters of the search form. *)
Definition search_filters (s : SearchForm.State)
  : string * string * list string * string * list string * option Z * option Z :=
  (SearchForm.majorHead s, SearchForm.minorHead s, SearchForm.tags s,
   SearchForm.newTag s, SearchForm.availableTags s,
   SearchForm.fromDate s, SearchForm.toDate s).

(** A search form with filters set and an earlier result still listed. *)
Definition search_with_results : App :=
  with_search (fun _ => SearchForm.mk "Personal" "Tom" ["invoice"] "" [] (Some 0) None
                                      [JObj [("id", JNum 7)]] false)
              (signed_in "abc").

(** ** The tag editor shared by the upload and the search screen *)

Inductive Screen : Type := OnUpload | OnSearch.

(** [tags], [newTag] and [availableTags] of a screen. *)
Definition selected (sc : Screen) (a : App) : list string :=
  match sc with
  | OnUpload => UploadForm.tags (upload a)
  | OnSearch => SearchForm.tags (search a)
  end.

Definition tag_input (sc : Screen) (a : App) : string :=
  match sc with
  | OnUpload => UploadForm.newTag (upload a)
  | OnSearch => SearchForm.newTag (search a)
  end.

Definition catalogue (sc : Screen) (a : App) : list string :=
  match sc with
  | OnUpload => UploadForm.availableTags (upload a)
  | OnSearch => SearchForm.availableTags (search a)
  end.


(** What the user can do to the tag editor: type into the input, submit
    it (the button or the return key), remove a chip, press a suggested
    chip. *)
Inductive TagEvent : Type :=
  | TypeTag (text : string)
  | AddTag
  | RemoveTag (tag : string)
  | PressSuggested (tag : string).

Definition tag_handler (sc : Screen) (ev : TagEvent) : M unit :=
  match sc, ev with
  | OnUpload, TypeTag text => UploadScreen.setNewTag text
  | OnUpload, AddTag => UploadScreen.handleAddTag
  | OnUpload, RemoveTag tag => UploadScreen.handleRemoveTag tag
  | OnUpload, PressSuggested tag => UploadScreen.suggestedTag_onPress tag
  | OnSearch, TypeTag text => SearchScreen.setNewTag text
  | OnSearch, AddTag => SearchScreen.handleAddTag
  | OnSearch, RemoveTag tag => SearchScreen.handleRemoveTag tag
  | OnSearch, PressSuggested tag => SearchScreen.suggestedTag_onPress tag
  end.

Fixpoint replay_tags (sc : Screen) (env : Env) (events : list TagEvent) (a : App) : App :=
  match events with
  | [] => a
  | ev :: rest => replay_tags sc env rest (exec (tag_handler sc ev) env a)
  end.

Definition is_typed (ev : TagEvent) : bool :=
  match ev with
  | PressSuggested _ => false
  | _ => true
  end.

(** A string that does not begin with white space. *)
Definition starts_clean (s : string) : Prop :=
  match s with
  | String c _ => Js.is_space c = false
  | EmptyString => True
  end.

(** A tag as the input produces it: not empty, no white space at either
    end. *)
Definition trimmed (t : string) : Prop :=
  t <> "" /\ starts_clean t /\ starts_clean (String.rev t).

(** ** The upload form over time *)

(** What the user can do on the upload form: pick a major head, pick a
    minor head, edit the tags, press the upload button. *)
Inductive UploadEvent : Type :=
  | PickMajor (itemValue : string)
  | PickMinor (itemValue : string)
  | EditTags (ev : TagEvent)
  | Submit.

Definition upload_handler (ev : UploadEvent) : M unit :=
  match ev with
  | PickMajor v => UploadScreen.majorHead_onValueChange v
  | PickMinor v => UploadScreen.minorHead_onValueChange v
  | EditTags ev => tag_handler OnUpload ev
  | Submit => UploadScreen.handleSubmit
  end.

(** The minor-head picker is rendered only under a non-empty major head,
    and its items are the placeholder [''] and the options of that
    major head; the other controls are always there. *)
Definition offered (s : UploadForm.State) (ev : UploadEvent) : bool :=
  match ev with
  | PickMinor v =>
      Js.nonempty (UploadForm.majorHead s)
      && Js.includes ("" :: minorHeadOptions (UploadForm.majorHead s)) v
  | _ => true
  end.

(** The application after a sequence of events, if each was offered by
    the screen when it happened. *)
Fixpoint replay_upload (env : Env) (events : list UploadEvent) (a : App) : option App :=
  match events with
  | [] => Some a
  | ev :: rest =>
      if offered (upload a) ev then replay_upload env rest (exec (upload_handler ev) env a)
      else None
  end.

(** The minor head is unset or belongs to the major head. *)
Definition category_consistent (s : UploadForm.State) : Prop :=
  UploadForm.minorHead s = ""
  \/ In (UploadForm.minorHead s) (minorHeadOptions (UploadForm.majorHead s)).

(** ** The rest of the device: platform, file system, pickers *)

(** [Platform.OS]; [Platform.select({ios, android})] has no entry for a
    third platform and yields [undefined] there. *)
Inductive PlatformOS : Type := IOS | Android | OtherOS.

(** The argument of [RNFS.downloadFile] (its [progress] callback only
    writes to the console log and is left out) and what its promise
    resolves to. *)
Record DownloadOptions : Type := mkDownload {
  fromUrl : JsValue;
  toFile : JsValue;
  background : bool;
  discretionary : bool
}.

Record DownloadResult : Type := mkDownloadResult { statusCode : Z; bytesWritten : Z }.

(** What [launchCamera] resolves to. *)
Record CameraResult : Type := mkCameraResult {
  didCancel : bool;
  assets : option (list JsValue)
}.

(** The environment of the screens that go beyond [fetch] and storage:
    the platform, the directories of the file system module, the outcome
    of a download, and what the document picker and the camera hand
    back when they are opened. *)
Record Host : Type := mkHost {
  base : Env;
  platform : PlatformOS;
  DocumentDirectoryPath : string;
  DownloadDirectoryPath : string;
  downloadFile : DownloadOptions -> Completion DownloadResult;
  pick : Completion (list JsValue);
  isCancel : JsError -> bool;
  launchCamera : Completion CameraResult
}.

(** The application together with the hooks not held in [App]: the
    three date-picker flags, the busy flag of the preview screen, and
    the downloads started so far. *)
Record Screens : Type := mkScreens {
  app : App;
  showDatePicker : bool;
  showFromDatePicker : bool;
  showToDatePicker : bool;
  downloading : bool;
  downloads : list DownloadOptions
}.

Definition with_app (f : App -> App) (s : Screens) : Screens :=
  mkScreens (f (app s)) (showDatePicker s) (showFromDatePicker s) (showToDatePicker s)
            (downloading s) (downloads s).
Definition with_showDatePicker (b : bool) (s : Screens) : Screens :=
  mkScreens (app s) b (showFromDatePicker s) (showToDatePicker s)
            (downloading s) (downloads s).
Definition with_showFromDatePicker (b : bool) (s : Screens) : Screens :=
  mkScreens (app s) (showDatePicker s) b (showToDatePicker s)
            (downloading s) (downloads s).
Definition with_showToDatePicker (b : bool) (s : Screens) : Screens :=
  mkScreens (app s) (showDatePicker s) (showFromDatePicker s) b
            (downloading s) (downloads s).
Definition with_downloading (b : bool) (s : Screens) : Screens :=
  mkScreens (app s) (showDatePicker s) (showFromDatePicker s) (showToDatePicker s)
            b (downloads s).
Definition with_downloads (f : list DownloadOptions -> list DownloadOptions) (s : Screens)
  : Screens :=
  mkScreens (app s) (showDatePicker s) (showFromDatePicker s) (showToDatePicker s)
            (downloading s) (f (downloads s)).

(** Handlers over the larger state. *)
Definition Ui (A : Type) : Type := Host -> Screens -> Completion A * Screens.

#[global] Instance Ui_ret : MRet Ui := fun A x _ s => (Return x, s).

#[global] Instance Ui_bind : MBind Ui := fun A B k m host s =>
  match m host s with
  | (Return x, s') => k x host s'
  | (Throw e, s') => (Throw e, s')
  end.

#[global] Instance Ui_throw : MThrow JsError Ui := fun A e _ s => (Throw e, s).

Definition ui_try_catch {A} (body : Ui A) (handler : JsError -> Ui A) : Ui A :=
  fun host s =>
    match body host s with
    | (Return x, s') => (Return x, s')
    | (Throw e, s') => handler e host s'
    end.

Definition ui_try_finally {A} (body : Ui A) (cleanup : Ui unit) : Ui A :=
  fun host s =>
    let '(r, s') := body host s in
    match cleanup host s' with
    | (Return _, s'') => (r, s'')
    | (Throw e, s'') => (Throw e, s'')
    end.

(** A handler of the smaller state, run inside the larger one. *)
Definition lift {A} (m : M A) : Ui A :=
  fun host s =>
    let '(r, a') := m (base host) (app s) in
    (r, with_app (fun _ => a') s).

Definition ui_update (f : Screens -> Screens) : Ui unit := fun _ s => (Return tt, f s).
Definition ui_read {A} (f : Screens -> A) : Ui A := fun _ s => (Return (f s), s).
Definition ui_ask {A} (f : Host -> A) : Ui A := fun host s => (Return (f host), s).
Definition ui_settle {A} (c : Completion A) : Ui A := fun _ s => (c, s).

Definition ui_exec {A} (m : Ui A) (host : Host) (s : Screens) : Screens := snd (m host s).
Definition ui_outcome {A} (m : Ui A) (host : Host) (s : Screens) : Completion A :=
  fst (m host s).

(** ** Strings of file names *)
Module JsString.

(** [s.split('.').pop()]: what follows the last dot, the whole string
    when there is none. *)
Fixpoint after_last_dot (s : string) : option string :=
  match s with
  | EmptyString => None
  | String c rest =>
      match after_last_dot rest with
      | Some t => Some t
      | None => if Ascii.eqb c "." then Some rest else None
      end
  end.

Definition split_pop (s : string) : string :=
  match after_last_dot s with
  | Some t => t
  | None => s
  end.

(** [toLowerCase] on the code units below 256: A-Z and the accented
    capitals 0xC0-0xDE (without the multiplication sign 0xD7) move up by
    32. *)
Definition lower (c : ascii) : ascii :=
  let n := N_of_ascii c in
  if ((65 <=? n) && (n <=? 90) || (192 <=? n) && (n <=? 222) && negb (n =? 215))%N
  then ascii_of_N (n + 32)
  else c.

Fixpoint toLowerCase (s : string) : string :=
  match s with
  | EmptyString => EmptyString
  | String c rest => String (lower c) (toLowerCase rest)
  end.

Fixpoint has_dot (s : string) : bool :=
  match s with
  | EmptyString => false
  | String c rest => Ascii.eqb c "." || has_dot rest
  end.

End JsString.

(** ** screens/PreviewScreen.js *)
Module PreviewScreen.

(** [document.file_url ? document.file_url.split('.').pop().toLowerCase() : ''];
    a truthy [file_url] that is not a string has no [split]. *)
Definition fileExtension (document : JsValue) : M string :=
  file_url ← prop document "file_url";
  if Js.truthy file_url then
    match file_url with
    | JStr s => mret (JsString.toLowerCase (JsString.split_pop s))
    | _ => mthrow (TypeError "document.file_url.split is not a function")
    end
  else mret "".






Definition setDownloading (b : bool) : Ui unit := ui_update (with_downloading b).

(** [RNFS.downloadFile(options).promise] *)
Definition RNFS_downloadFile (options : DownloadOptions) : Ui DownloadResult :=
  ui_update (with_downloads (fun l => (l ++ [options])%list)) ;;
  r ← ui_ask (fun host => downloadFile host options);
  ui_settle r.

(** [Platform.select({ ios: `${RNFS.DocumentDirectoryPath}/${fileName}`,
                       android: `${RNFS.DownloadDirectoryPath}/${fileName}` })] *)
Definition downloadDest (host : Host) (fileName : JsValue) : JsValue :=
  match platform host with
  | IOS => JStr (DocumentDirectoryPath host +:+ "/" +:+ Js.toString fileName)
  | Android => JStr (DownloadDirectoryPath host +:+ "/" +:+ Js.toString fileName)
  | OtherOS => JUndefined
  end.

(** The handler closes over [fileExtension], computed when the screen
    rendered: a screen whose render threw has no button to press. *)
Definition handleDownload (document : JsValue) : Ui unit :=
  fileExtension ← lift (fileExtension document);
  file_url ← lift (prop document "file_url");
  if negb (Js.truthy file_url) then
    lift (Alert_alert "Error" (JStr "File URL is missing. Cannot download."))
  else
    setDownloading true ;;
    document_name ← lift (prop document "document_name");
    today ← ui_ask (fun host => now (base host));
    let fileName :=
      Js.or document_name (JStr ("document_" +:+ pretty today +:+ "." +:+ fileExtension)) in
    dest ← ui_ask (fun host => downloadDest host fileName);
    ui_try_finally
      (ui_try_catch
         (response ← RNFS_downloadFile (mkDownload file_url dest true true);
          if (statusCode response =? 200)%Z then
            lift (Alert_alert "Success" (JStr ("File downloaded to: " +:+ Js.toString dest)))
          else
            lift (Alert_alert "Download Error"
                    (JStr ("Failed to download file. Status: "
                           +:+ pretty (statusCode response)))))
         (fun error =>
            lift (console_error "Download error:" error) ;;
            lift (Alert_alert "Download Failed"
                    (JStr ("An error occurred during download: " +:+ message error)))))
      (setDownloading false).

End PreviewScreen.

(** ** Date pickers and file pickers of the upload and search screens *)
Module Pickers.

Definition is_ios (host : Host) : bool :=
  match platform host with
  | IOS => true
  | _ => false
  end.

(** UploadScreen [onDateChange(event, selectedDate)]; a dismissed picker
    passes no date. *)
Definition onDateChange (selectedDate : option Z) : Ui unit :=
  documentDate ← ui_read (fun s => UploadForm.documentDate (upload (app s)));
  let currentDate := match selectedDate with Some d => d | None => documentDate end in
  ios ← ui_ask is_ios;
  ui_update (with_showDatePicker ios) ;;
  lift (UploadScreen.setDocumentDate currentDate).

Definition setFromDate (v : option Z) : M unit :=
  update (with_search (fun s =>
    SearchForm.mk (SearchForm.majorHead s) (SearchForm.minorHead s) (SearchForm.tags s)
                  (SearchForm.newTag s) (SearchForm.availableTags s)
                  v (SearchForm.toDate s) (SearchForm.searchResults s)
                  (SearchForm.loading s))).

Definition setToDate (v : option Z) : M unit :=
  update (with_search (fun s =>
    SearchForm.mk (SearchForm.majorHead s) (SearchForm.minorHead s) (SearchForm.tags s)
                  (SearchForm.newTag s) (SearchForm.availableTags s)
                  (SearchForm.fromDate s) v (SearchForm.searchResults s)
                  (SearchForm.loading s))).

(** SearchScreen [onFromDateChange]: [selectedDate || fromDate]. *)
Definition onFromDateChange (selectedDate : option Z) : Ui unit :=
  fromDate ← ui_read (fun s => SearchForm.fromDate (search (app s)));
  let currentDate := match selectedDate with Some d => Some d | None => fromDate end in
  ios ← ui_ask is_ios;
  ui_update (with_showFromDatePicker ios) ;;
  lift (setFromDate currentDate).

(** SearchScreen [onToDateChange]: [selectedDate || toDate]. *)
Definition onToDateChange (selectedDate : option Z) : Ui unit :=
  toDate ← ui_read (fun s => SearchForm.toDate (search (app s)));
  let currentDate := match selectedDate with Some d => Some d | None => toDate end in
  ios ← ui_ask is_ios;
  ui_update (with_showToDatePicker ios) ;;
  lift (setToDate currentDate).

(** [DocumentPicker.pick({ type: [images, pdf] })] *)
Definition DocumentPicker_pick : Ui (list JsValue) :=
  picked ← ui_ask pick;
  ui_settle picked.

(** [launchCamera({ mediaType: 'photo', quality: 0.5, includeBase64: false })] *)
Definition launchCamera_photo : Ui CameraResult :=
  shot ← ui_ask launchCamera;
  ui_settle shot.

(** UploadScreen [handleFilePick] *)
Definition handleFilePick : Ui unit :=
  ui_try_catch
    (res ← DocumentPicker_pick;
     (* res[0] *)
     lift (UploadScreen.setSelectedFile (match res with x :: _ => x | [] => JUndefined end)))
    (fun err =>
       cancelled ← ui_ask (fun host => isCancel host err);
       if (cancelled : bool) then
         (* console.log('User cancelled document picker'): the console of
            the model keeps what console.error printed *)
         mret tt
       else
         lift (console_error "DocumentPicker Error:" err) ;;
         lift (Alert_alert "Error" (JStr "Failed to pick document. Please try again."))).

(** UploadScreen [handleCameraCapture] *)
Definition handleCameraCapture : Ui unit :=
  ui_try_catch
    (result ← launchCamera_photo;
     match didCancel result, assets result with
     | false, Some (first :: _) => lift (UploadScreen.setSelectedFile first)
     | _, _ => mret tt
     end)
    (fun error =>
       lift (console_error "Camera capture error:" error) ;;
       lift (Alert_alert "Error"
               (JStr "Failed to capture image. Please check camera permissions."))).

End Pickers.

(** A phone of each platform whose downloads end as [outcome]; the
    pickers are cancelled. *)
Definition cancel_error : JsError := Error "User canceled document picker".

Definition phone (os : PlatformOS) (outcome : Completion DownloadResult) : Host :=
  mkHost (answering bad_gateway) os "/data/docs" "/storage/Download"
         (fun _ => outcome) (Throw cancel_error) (fun _ => true)
         (Return (mkCameraResult true None)).

Definition screens_of (a : App) : Screens := mkScreens a false false false false [].

(** A search result as the preview screen receives it. *)
Definition scan_record : JsValue :=
  JObj [("document_name", JStr "scan.pdf");
        ("file_url", JStr "https://files.example.com/docs/Scan.March.PDF");
        ("major_head", JStr "Personal"); ("minor_head", JStr "Tom")].

(** ** The search form over time *)

(** What the user can do on the search form: answer or open a date
    picker, pick a head, edit the tags, press the search button. *)
Inductive SearchEvent : Type :=
  | FromDateChange (selectedDate : option Z)
  | ToDateChange (selectedDate : option Z)
  | OpenFromPicker
  | OpenToPicker
  | PickMajorFilter (itemValue : string)
  | PickMinorFilter (itemValue : string)
  | EditFilterTags (ev : TagEvent)
  | RunSearch.

Definition search_handler (ev : SearchEvent) : Ui unit :=
  match ev with
  | FromDateChange selectedDate => Pickers.onFromDateChange selectedDate
  | ToDateChange selectedDate => Pickers.onToDateChange selectedDate
  | OpenFromPicker => ui_update (with_showFromDatePicker true)
  | OpenToPicker => ui_update (with_showToDatePicker true)
  | PickMajorFilter v => lift (SearchScreen.majorHead_onValueChange v)
  | PickMinorFilter v => lift (SearchScreen.minorHead_onValueChange v)
  | EditFilterTags ev => lift (tag_handler OnSearch ev)
  | RunSearch => lift SearchScreen.handleSearch
  end.

Fixpoint replay_search (host : Host) (events : list SearchEvent) (s : Screens) : Screens :=
  match events with
  | [] => s
  | ev :: rest => replay_search host rest (ui_exec (search_handler ev) host s)
  end.

(** * Properties *)

(** Unfolding a handler down to the environment reads it branches on. *)
Ltac unfold_monad :=
  unfold mbind, mret, mthrow, M_bind, M_ret, M_throw,
         try_catch, try_finally, read, update, ask in *.

Ltac unfold_device :=
  unfold AsyncStorage.getItem, AsyncStorage.setItem, AsyncStorage.removeItem,
         AsyncStorage.read_back,
         fetch, response_json, console_error, Alert_alert, prop in *.

Ltac unfold_services :=
  unfold invoke, DocumentService.uploadDocument, DocumentService.fetchDocumentTags,
         DocumentService.searchDocuments, DocumentService.getUserToken,
         DocumentService.api_error, DocumentService.API_BASE_URL,
         AuthService.validateOTP, AuthService.generateOTP, AuthService.API_BASE_URL,
         AuthContext.loadToken, AuthContext.signIn, AuthContext.signOut,
         AuthContext.setUserToken, AuthContext.setIsLoading in *.

Ltac run := unfold exec, outcome; unfold_services; unfold_device; unfold_monad; simpl.

(** Rewriting through [getUserToken] when the read works and the stored
    token [tok] is not empty. *)
Ltac read_token Hread Htok Hne :=
  let Hne' := fresh "Hne'" in
  pose proof Hne as Hne'; unfold Js.nonempty in Hne';
  rewrite Hread; simpl; rewrite Htok; simpl; rewrite ?Hne; simpl; rewrite ?Hne'; simpl.

Lemma includes_In (arr : list string) (x : string) :
  Js.includes arr x = true <-> In x arr.
Proof.
  unfold Js.includes. rewrite existsb_exists. split.
  - intros [y [Hy Heq]]. apply String.eqb_eq in Heq. now subst.
  - intros H. exists x. split; [assumption | apply String.eqb_refl].
Qed.

(** ** The runtime helpers on sample inputs *)

Example isoDate_samples :
  JsDate.isoDate 0 = "1970-01-01"
  /\ JsDate.isoDate 1700000000000 = "2023-11-14"
  /\ JsDate.isoDate 951782400000 = "2000-02-29"
  /\ JsDate.isoDate (-1) = "1969-12-31".
Proof. repeat split. Qed.

Example trim_samples :
  Js.trim "  invoice " = "invoice" /\ Js.trim "   " = "" /\ Js.trim "a b" = "a b".
Proof. repeat split. Qed.

Example toString_samples :
  Js.toString (JArr [JNum 1; JNull; JArr [JStr "a"; JBool true]; JObj []])
  = "1,,a,true,[object Object]"
  /\ Js.toString (JNum (-5)) = "-5".
Proof. repeat split. Qed.

(** The end-to-end login scenario: the code "123456" is redeemed for the
    token "abc"; the session becomes Authenticated and "abc" is in the
    store. *)
Example login_scenario :
  let env := answering (json_response 200 (JObj [("success", JBool true);
                                                 ("token", JStr "abc")])) in
  let a' := exec LoginScreen.handleValidateOtp env login_filled in
  shell a' = Authenticated
  /\ disk a' !! "userToken" = Some "abc"
  /\ alerts a' = [("Success", JStr "Login successful!")].
Proof. repeat split. Qed.

(** ** Document API: the session precondition *)

(** A document call sends nothing unless it read a non-empty token,
    whatever the storage does. *)
Lemma no_token_no_request (c : DocumentCall) (env : Env) (a : App) :
  disk a !! "userToken" = None ->
  network (exec (invoke c) env a) = network a
  /\ exists e, outcome (invoke c) env a = Throw e.
Proof.
  intros Hnone. destruct c; run;
    destruct (storage_fault env (GetItem "userToken")); simpl;
    rewrite ?Hnone; simpl; eauto.
Qed.

(** C1. Each of the three document API operations (uploadDocument,
    fetchDocumentTags, searchDocuments), called while no session token
    is stored, throws the missing-session fault "Authentication token
    not found. Please log in again." and issues no network request. *)
Theorem C1_missing_session_fails_fast (c : DocumentCall) (env : Env) (a : App) :
  disk a !! "userToken" = None ->
  storage_fault env (GetItem "userToken") = None ->
  outcome (invoke c) env a
    = Throw (Error "Authentication token not found. Please log in again.")
  /\ network (exec (invoke c) env a) = network a.
Proof.
  intros Hnone Hread. destruct c; run; rewrite Hread; simpl; rewrite Hnone; simpl; auto.
Qed.

Lemma C1_missing_session_witness :
  outcome (invoke (SearchDocuments (JObj [("major_head", JStr "Personal")])))
          (answering (json_response 200 (JObj [("success", JBool true)]))) signed_out
    = Throw (Error "Authentication token not found. Please log in again.")
  /\ network (exec (invoke (SearchDocuments (JObj [("major_head", JStr "Personal")])))
                   (answering (json_response 200 (JObj [("success", JBool true)]))) signed_out)
     = network signed_out.
Proof.
  apply (C1_missing_session_fails_fast
           (SearchDocuments (JObj [("major_head", JStr "Personal")]))
           (answering (json_response 200 (JObj [("success", JBool true)]))) signed_out);
    reflexivity.
Defined.

(** ** Category pickers *)

Ltac unfold_upload :=
  unfold UploadScreen.handleAddTag, UploadScreen.handleRemoveTag,
         UploadScreen.suggestedTag_onPress, UploadScreen.majorHead_onValueChange,
         UploadScreen.minorHead_onValueChange, UploadScreen.setDocumentDate,
         UploadScreen.setMajorHead, UploadScreen.setMinorHead, UploadScreen.setRemarks,
         UploadScreen.setTags, UploadScreen.setNewTag, UploadScreen.setSelectedFile,
         UploadScreen.setLoading in *.

Ltac unfold_search :=
  unfold SearchScreen.handleAddTag, SearchScreen.handleRemoveTag,
         SearchScreen.suggestedTag_onPress, SearchScreen.majorHead_onValueChange,
         SearchScreen.minorHead_onValueChange, SearchScreen.setMajorHead,
         SearchScreen.setMinorHead, SearchScreen.setTags, SearchScreen.setNewTag,
         SearchScreen.setSearchResults, SearchScreen.setLoading in *.

(** On the upload screen the major-head picker stores the new value and
    empties the minor head. *)
Lemma upload_major_change_clears_minor (v : string) (env : Env) (a : App) :
  let a' := exec (UploadScreen.majorHead_onValueChange v) env a in
  UploadForm.majorHead (upload a') = v /\ UploadForm.minorHead (upload a') = "".
Proof. unfold exec; unfold_upload; unfold_monad; simpl. auto. Qed.

(** On the search screen the major-head picker is wired to
    [setMajorHead] alone: the minor head is whatever it was. *)
Lemma search_major_change_frames_minor (v : string) (env : Env) (a : App) :
  let a' := exec (SearchScreen.majorHead_onValueChange v) env a in
  SearchForm.majorHead (search a') = v
  /\ SearchForm.minorHead (search a') = SearchForm.minorHead (search a).
Proof. unfold exec; unfold_search; unfold_monad; simpl. auto. Qed.

(** C2. Changing the selected major category should clear the selected
    minor category on every screen with category pickers. The search
    screen does not: after picking "Personal" / "Tom" and changing the
    major head to "Professional", the minor head is still "Tom", which
    is not even one of the options offered under "Professional". *)
Theorem C2_search_major_change_keeps_minor :
  let a' := exec (SearchScreen.majorHead_onValueChange "Professional")
                 (answering bad_gateway) search_personal_tom in
  SearchForm.majorHead (search a') = "Professional"
  /\ SearchForm.minorHead (search a') = "Tom"
  /\ SearchForm.minorHead (search a') <> ""
  /\ ~ In "Tom" (minorHeadOptions "Professional").
Proof.
  simpl. repeat split; try discriminate.
  intros H. repeat (destruct H as [H | H]; [discriminate |]). exact H.
Qed.

(** ** Session persistence *)

(** C3, as stated, fails at the empty token. [signIn('')] persists the
    empty string, but a fresh load does not yield it: the read of the
    store resolves to [null], and a newly started process ends up with
    no session token. *)
Lemma C3_empty_token_counterexample :
  let env := answering bad_gateway in
  let after_sign_in := launch (disk (exec (AuthContext.signIn (JStr "")) env signed_out)) 0 in
  disk after_sign_in !! "userToken" = Some ""
  /\ outcome (AsyncStorage.getItem "userToken") env after_sign_in = Return JNull
  /\ outcome (AsyncStorage.getItem "userToken") env after_sign_in <> Return (JStr "")
  /\ Session.userToken (auth (exec AuthContext.loadToken env after_sign_in)) = JNull.
Proof. repeat split. discriminate. Qed.

(** C3, amended. For every non-empty token [t], [signIn(t)] followed by
    a fresh load of the persisted store yields [t], and [signOut()]
    followed by a fresh load yields absence, provided the storage
    operations succeed. The fresh load is read both directly
    ([getItem]) and through the mount effect of a newly started
    process. *)
Theorem C3_session_round_trip (t : string) (env : Env) (a : App) (today : Z) :
  Js.nonempty t = true ->
  storage_fault env (SetItem "userToken" (JStr t)) = None ->
  storage_fault env (RemoveItem "userToken") = None ->
  storage_fault env (GetItem "userToken") = None ->
  let after_sign_in := launch (disk (exec (AuthContext.signIn (JStr t)) env a)) today in
  let after_sign_out := launch (disk (exec AuthContext.signOut env a)) today in
  outcome (AsyncStorage.getItem "userToken") env after_sign_in = Return (JStr t)
  /\ Session.userToken (auth (exec AuthContext.loadToken env after_sign_in)) = JStr t
  /\ outcome (AsyncStorage.getItem "userToken") env after_sign_out = Return JNull
  /\ Session.userToken (auth (exec AuthContext.loadToken env after_sign_out)) = JNull.
Proof.
  intros Hne Hset Hremove Hget. run. rewrite Hset, Hremove, Hget. simpl.
  rewrite lookup_insert_eq, lookup_delete_eq. rewrite Hne. auto.
Qed.

Lemma C3_session_round_trip_witness :
  let env := answering bad_gateway in
  let after_sign_in := launch (disk (exec (AuthContext.signIn (JStr "abc")) env signed_out)) 0 in
  let after_sign_out := launch (disk (exec AuthContext.signOut env signed_out)) 0 in
  outcome (AsyncStorage.getItem "userToken") env after_sign_in = Return (JStr "abc")
  /\ Session.userToken (auth (exec AuthContext.loadToken env after_sign_in)) = JStr "abc"
  /\ outcome (AsyncStorage.getItem "userToken") env after_sign_out = Return JNull
  /\ Session.userToken (auth (exec AuthContext.loadToken env after_sign_out)) = JNull.
Proof.
  apply (C3_session_round_trip "abc" (answering bad_gateway) signed_out 0); reflexivity.
Defined.

(** ** Document API: faults on a non-2xx status *)

(** When [response.json()] rejects, the call rethrows that rejection,
    whatever the status was. *)
Lemma undecodable_body_fault (c : DocumentCall) (env : Env) (a : App)
    (tok : string) (resp : Response) (e : JsError) :
  disk a !! "userToken" = Some tok ->
  Js.nonempty tok = true ->
  storage_fault env (GetItem "userToken") = None ->
  server env (request_of c (JStr tok)) = Return resp ->
  json resp = Throw e ->
  outcome (invoke c) env a = Throw e.
Proof.
  intros Htok Hne Hread Hserver Hjson.
  destruct c; simpl in Hserver; run; read_token Hread Htok Hne; rewrite Hserver; simpl; rewrite Hjson; reflexivity.
Qed.

(** C4, as stated, fails. With a token stored, a 502 answer whose body
    is an HTML error page (so no server message is present) makes
    [uploadDocument] throw the JSON parse fault of [response.json()],
    not a fault with the generic message "API error: 502". *)
Lemma C4_error_page_counterexample :
  let call := CreateDocument (JStr "file:///scan.pdf") (JStr "scan.pdf")
                             (JStr "application/pdf") (JObj [("major_head", JStr "Personal")]) in
  ok bad_gateway = false
  /\ outcome (invoke call) (answering bad_gateway) (signed_in "abc")
     = Throw (mkError KSyntaxError "JSON Parse error: Unexpected token: <")
  /\ outcome (invoke call) (answering bad_gateway) (signed_in "abc")
     <> Throw (Error ("API error: " +:+ pretty (status bad_gateway))).
Proof. repeat split. discriminate. Qed.

(** C4, amended. Each of the three document API calls, on a non-2xx
    HTTP status whose body decodes to a JSON value other than [null],
    sends its one request and throws a fault whose message is the
    server-supplied [message] when that is truthy (a non-empty string
    is carried verbatim), else the generic "API error: <status>". *)
Theorem C4_non_ok_status_fault (c : DocumentCall) (env : Env) (a : App)
    (tok : string) (resp : Response) (data : JsValue) :
  disk a !! "userToken" = Some tok ->
  Js.nonempty tok = true ->
  storage_fault env (GetItem "userToken") = None ->
  server env (request_of c (JStr tok)) = Return resp ->
  ok resp = false ->
  json resp = Return data ->
  Js.nullish data = false ->
  let generic := "API error: " +:+ pretty (status resp) in
  let thrown := outcome (invoke c) env a in
  thrown = Throw (Error (Js.toString (Js.or (member "message" data) (JStr generic))))
  /\ (forall s, member "message" data = JStr s -> Js.nonempty s = true ->
      thrown = Throw (Error s))
  /\ (Js.truthy (member "message" data) = false -> thrown = Throw (Error generic))
  /\ network (exec (invoke c) env a) = (network a ++ [request_of c (JStr tok)])%list.
Proof.
  intros Htok Hne Hread Hserver Hok Hjson Hnull generic thrown.
  assert (Hthrown : thrown
            = Throw (Error (Js.toString (Js.or (member "message" data) (JStr generic))))
          /\ network (exec (invoke c) env a) = (network a ++ [request_of c (JStr tok)])%list).
  { subst thrown generic.
    destruct c; simpl in Hserver; run; read_token Hread Htok Hne; rewrite Hserver; simpl; rewrite Hjson; simpl; rewrite Hok; simpl;
      destruct data; try discriminate Hnull; simpl; auto. }
  destruct Hthrown as [Hthrown Hsent]. repeat split; try assumption.
  - intros s Hs Hs'. rewrite Hthrown. unfold Js.or. rewrite Hs.
    simpl. unfold Js.nonempty in Hs'. now rewrite Hs'.
  - intros Hfalsy. rewrite Hthrown. unfold Js.or. now rewrite Hfalsy.
Qed.

Lemma C4_non_ok_status_witness :
  let env := answering (json_response 401 (JObj [("success", JBool false);
                                                 ("message", JStr "Invalid token")])) in
  outcome (invoke (ListTags (JStr ""))) env (signed_in "abc")
  = Throw (Error "Invalid token").
Proof.
  refine (proj1 (proj2 (C4_non_ok_status_fault (ListTags (JStr ""))
            (answering (json_response 401 (JObj [("success", JBool false);
                                                 ("message", JStr "Invalid token")])))
            (signed_in "abc") "abc"
            (json_response 401 (JObj [("success", JBool false);
                                      ("message", JStr "Invalid token")]))
            (JObj [("success", JBool false); ("message", JStr "Invalid token")])
            _ _ _ _ _ _ _)) "Invalid token" _ _);
    reflexivity.
Defined.

(** ** Upload submission *)

(** Case analysis on the innermost value a computation branches on. *)
Ltac case_scrutinee :=
  match goal with
  | |- context [match ?x with _ => _ end] =>
      lazymatch x with
      | context [match _ with _ => _ end] => fail
      | _ => destruct x eqn:?
      end
  end.

(** A document call touches the network log and the console only. *)
Lemma invoke_frame (c : DocumentCall) (env : Env) (a : App) :
  let a' := exec (invoke c) env a in
  disk a' = disk a /\ alerts a' = alerts a /\ auth a' = auth a
  /\ login a' = login a /\ upload a' = upload a /\ search a' = search a.
Proof.
  destruct c; run; repeat (case_scrutinee; simpl); auto 10.
Qed.

(** A document call returns only what a 2xx answer carried. *)
Lemma invoke_returns (c : DocumentCall) (env : Env) (a : App) (data : JsValue) :
  outcome (invoke c) env a = Return data ->
  exists tok resp,
    disk a !! "userToken" = Some tok
    /\ server env (request_of c (JStr tok)) = Return resp
    /\ ok resp = true
    /\ json resp = Return data.
Proof.
  destruct c; run; repeat (case_scrutinee; simpl); try discriminate.
  all: intros [= <-];
    match goal with H : negb (ok _) = false |- _ => apply negb_false_iff in H end;
    eauto 10.
Qed.

(** Whatever the environment does, [handleSubmit] either leaves the
    form fields as they were or has received a 2xx answer whose
    [success] member is truthy. *)
Lemma upload_reset_only_on_success (env : Env) (a : App) :
  form_fields (upload (exec UploadScreen.handleSubmit env a)) = form_fields (upload a)
  \/ exists tok resp data,
       disk a !! "userToken" = Some tok
       /\ server env (request_of (upload_call (upload a)) (JStr tok)) = Return resp
       /\ ok resp = true
       /\ json resp = Return data
       /\ Js.truthy (member "success" data) = true.
Proof.
  destruct a as [dk nw cs al au lg [dd mj mn rk tg nt av sf ld] sr].
  unfold exec, UploadScreen.handleSubmit, upload_call. unfold_monad. simpl.
  destruct (Js.truthy sf) eqn:Hfile; simpl; [| now left].
  destruct (Js.nonempty mj); simpl; [| now left].
  destruct (Js.nonempty mn); simpl; [| now left].
  destruct tg as [| tag tg]; simpl; [now left |].
  assert (Hprop : forall k env' a', prop sf k env' a' = (Return (member k sf), a')).
  { intros k env' a'. destruct sf; try discriminate Hfile; reflexivity. }
  rewrite !Hprop. simpl.
  match goal with
  | |- context [DocumentService.uploadDocument ?u ?n ?t ?d env ?a1] =>
      pose proof (invoke_frame (CreateDocument u n t d) env a1) as Hframe;
      pose proof (invoke_returns (CreateDocument u n t d) env a1) as Hret;
      unfold exec, outcome in Hframe, Hret; simpl in Hframe, Hret;
      destruct (DocumentService.uploadDocument u n t d env a1) as [r a2]
  end.
  destruct a2 as [dk2 nw2 cs2 al2 au2 lg2 up2 sr2]. simpl in Hframe, Hret.
  destruct Hframe as (-> & -> & -> & -> & -> & ->).
  unfold_upload; unfold_device; unfold_monad.
  destruct r as [data | e]; simpl; [| now left].
  destruct (Hret data eq_refl) as (tok & resp & Htok & Hserver & Hok & Hjson).
  destruct data; simpl; try (now left).
  destruct (Js.truthy (Js.assoc "success" fields)) eqn:Hsuccess; simpl.
  - right. exists tok, resp, (JObj fields). auto.
  - now left.
Qed.


(** A decoded answer with [success:false] and a message: the form is as
    it was and the message is alerted, under the title of the branch
    that handled it (the [else] branch on 2xx, the [catch] otherwise). *)
Lemma rejected_upload (env : Env) (a : App)
    (tok : string) (resp : Response) (fields : list (string * JsValue)) (m : string) :
  submittable (upload a) = true ->
  disk a !! "userToken" = Some tok ->
  Js.nonempty tok = true ->
  storage_fault env (GetItem "userToken") = None ->
  server env (request_of (upload_call (upload a)) (JStr tok)) = Return resp ->
  json resp = Return (JObj fields) ->
  Js.assoc "success" fields = JBool false ->
  Js.assoc "message" fields = JStr m ->
  Js.nonempty m = true ->
  let a' := exec UploadScreen.handleSubmit env a in
  form_fields (upload a') = form_fields (upload a)
  /\ alerts a'
     = (alerts a ++ [(if ok resp then "Upload Error" else "Upload Failed", JStr m)])%list.
Proof.
  destruct a as [dk nw cs al au lg [dd mj mn rk tg nt av sf ld] sr].
  unfold submittable, upload_call, request_of. simpl.
  intros Hvalid Htok Hne Hread Hserver Hjson Hsuccess Hmessage Hm.
  apply andb_true_iff in Hvalid as [Hvalid Htags].
  apply andb_true_iff in Hvalid as [Hvalid Hminor].
  apply andb_true_iff in Hvalid as [Hfile Hmajor].
  apply negb_true_iff in Htags.
  unfold Js.nonempty in Hm.
  assert (Hprop : forall k env' a', prop sf k env' a' = (Return (member k sf), a')).
  { intros k env' a'. destruct sf; try discriminate Hfile; reflexivity. }
  unfold exec, UploadScreen.handleSubmit. unfold_monad. simpl.
  rewrite Hfile, Hmajor, Hminor, Htags. simpl. rewrite !Hprop. simpl.
  unfold_services; unfold_device; unfold_upload; unfold_monad. simpl.
  read_token Hread Htok Hne.
  rewrite Hserver. simpl. rewrite Hjson. simpl.
  destruct (ok resp); simpl; rewrite ?Hsuccess, Hmessage; simpl.
  - unfold Js.or. simpl. rewrite Hm. auto.
  - unfold Js.or, Js.str_or, Js.nonempty. simpl. rewrite Hm. simpl. rewrite Hm. auto.
Qed.

(** C5. When the upload submission receives a response with
    [success:false], the exact server-supplied message is shown to the
    user and every form field (document date, major head, minor head,
    remarks, tags, tag input, selected file) is left unchanged; the
    fields change only when a 2xx response arrived whose [success]
    passes the handler's truth test, which for a boolean is [true]. *)
Theorem C5_rejected_upload_keeps_form (env : Env) (a : App) :
  (forall tok resp fields m,
      submittable (upload a) = true ->
      disk a !! "userToken" = Some tok ->
      Js.nonempty tok = true ->
      storage_fault env (GetItem "userToken") = None ->
      server env (request_of (upload_call (upload a)) (JStr tok)) = Return resp ->
      json resp = Return (JObj fields) ->
      Js.assoc "success" fields = JBool false ->
      Js.assoc "message" fields = JStr m ->
      Js.nonempty m = true ->
      form_fields (upload (exec UploadScreen.handleSubmit env a)) = form_fields (upload a)
      /\ alerts (exec UploadScreen.handleSubmit env a)
         = (alerts a
            ++ [(if ok resp then "Upload Error" else "Upload Failed", JStr m)])%list)
  /\ (form_fields (upload (exec UploadScreen.handleSubmit env a)) <> form_fields (upload a) ->
      exists tok resp data,
        disk a !! "userToken" = Some tok
        /\ server env (request_of (upload_call (upload a)) (JStr tok)) = Return resp
        /\ ok resp = true
        /\ json resp = Return data
        /\ Js.truthy (member "success" data) = true).
Proof.
  split.
  - intros tok resp fields m Hvalid Htok Hne Hread Hserver Hjson Hsuccess Hmessage Hm.
    apply (rejected_upload env a tok resp fields m); assumption.
  - intros Hchanged. destruct (upload_reset_only_on_success env a) as [Hsame | Hok].
    + contradiction.
    + exact Hok.
Qed.

Lemma C5_rejected_upload_witness :
  let env := answering (json_response 200 (JObj [("success", JBool false);
                                                 ("message", JStr "Duplicate document")])) in
  form_fields (upload (exec UploadScreen.handleSubmit env upload_filled))
  = form_fields (upload upload_filled)
  /\ alerts (exec UploadScreen.handleSubmit env upload_filled)
     = [("Upload Error", JStr "Duplicate document")].
Proof.
  apply (proj1 (C5_rejected_upload_keeps_form
                  (answering (json_response 200 (JObj [("success", JBool false);
                                                       ("message", JStr "Duplicate document")])))
                  upload_filled)
               "abc"
               (json_response 200 (JObj [("success", JBool false);
                                         ("message", JStr "Duplicate document")]))
               [("success", JBool false); ("message", JStr "Duplicate document")]
               "Duplicate document");
    reflexivity.
Defined.

(** ** Tag selection *)

(** C6. Adding a tag that is already in the current selection leaves the
    selection, and the whole screen, unchanged. This holds on the upload
    and on the search screen, both for a tag typed into the input (it is
    compared after trimming) and for a suggested tag that is pressed. *)
Theorem C6_adding_selected_tag_is_noop (env : Env) (a : App) :
  (In (Js.trim (UploadForm.newTag (upload a))) (UploadForm.tags (upload a)) ->
   exec UploadScreen.handleAddTag env a = a)
  /\ (forall tag, In tag (UploadForm.tags (upload a)) ->
                  exec (UploadScreen.suggestedTag_onPress tag) env a = a)
  /\ (In (Js.trim (SearchForm.newTag (search a))) (SearchForm.tags (search a)) ->
      exec SearchScreen.handleAddTag env a = a)
  /\ (forall tag, In tag (SearchForm.tags (search a)) ->
                  exec (SearchScreen.suggestedTag_onPress tag) env a = a).
Proof.
  repeat split.
  - intros Hin. apply includes_In in Hin.
    unfold exec; unfold_upload; unfold_monad; simpl.
    rewrite Hin, andb_false_r. reflexivity.
  - intros tag Hin. apply includes_In in Hin.
    unfold exec; unfold_upload; unfold_monad; simpl.
    rewrite Hin. reflexivity.
  - intros Hin. apply includes_In in Hin.
    unfold exec; unfold_search; unfold_monad; simpl.
    rewrite Hin, andb_false_r. reflexivity.
  - intros tag Hin. apply includes_In in Hin.
    unfold exec; unfold_search; unfold_monad; simpl.
    rewrite Hin. reflexivity.
Qed.

Lemma C6_adding_selected_tag_witness :
  exec UploadScreen.handleAddTag (answering bad_gateway) upload_retyping_invoice
  = upload_retyping_invoice
  /\ exec (SearchScreen.suggestedTag_onPress "invoice") (answering bad_gateway)
          search_with_invoice
     = search_with_invoice.
Proof.
  split.
  - apply (proj1 (C6_adding_selected_tag_is_noop (answering bad_gateway)
                    upload_retyping_invoice)).
    simpl. left. reflexivity.
  - apply (proj2 (proj2 (proj2 (C6_adding_selected_tag_is_noop (answering bad_gateway)
                                  search_with_invoice)))).
    simpl. left. reflexivity.
Defined.

(** ** The navigation shell *)

Lemma loadToken_outcome (env : Env) (a : App) :
  outcome AuthContext.loadToken env a = Return tt
  /\ Session.isLoading (auth (exec AuthContext.loadToken env a)) = false.
Proof. run. destruct (storage_fault env (GetItem "userToken")); simpl; auto. Qed.

Lemma signIn_isLoading (token : JsValue) (env : Env) (a : App) :
  Session.isLoading (auth (exec (AuthContext.signIn token) env a))
  = Session.isLoading (auth a).
Proof.
  run. destruct (storage_fault env (SetItem "userToken" token)); simpl; auto.
  destruct token; reflexivity.
Qed.

Lemma signOut_isLoading (env : Env) (a : App) :
  Session.isLoading (auth (exec AuthContext.signOut env a)) = Session.isLoading (auth a).
Proof. run. destruct (storage_fault env (RemoveItem "userToken")); reflexivity. Qed.

Lemma replay_isLoading (env : Env) (events : list SessionEvent) (a : App) :
  Session.isLoading (auth (replay env events a))
  = Session.isLoading (auth a) && negb (load_resolved events).
Proof.
  revert a. induction events as [| ev rest IH]; intros a; simpl.
  - now rewrite andb_true_r.
  - rewrite IH. destruct ev; simpl.
    + rewrite (proj2 (loadToken_outcome env a)). now rewrite andb_false_r.
    + now rewrite signIn_isLoading.
    + now rewrite signOut_isLoading.
Qed.

Lemma shell_Loading (a : App) :
  shell a = Loading <-> Session.isLoading (auth a) = true.
Proof.
  unfold shell, AppContent. destruct (Session.isLoading (auth a)).
  - tauto.
  - destruct (Js.truthy (Session.userToken (auth a))); split; discriminate.
Qed.

Lemma loadToken_session (env : Env) (store : gmap string string) (today : Z) :
  auth (exec AuthContext.loadToken env (launch store today))
  = Session.mk (loaded_token env store) false.
Proof.
  unfold loaded_token. run.
  destruct (storage_fault env (GetItem "userToken")); reflexivity.
Qed.

Lemma getItem_outcome (env : Env) (a : App) :
  outcome (AsyncStorage.getItem "userToken") env a
  = match storage_fault env (GetItem "userToken") with
    | Some e => Throw e
    | None => Return (stored_token (disk a))
    end.
Proof. run. destruct (storage_fault env (GetItem "userToken")); reflexivity. Qed.

Lemma read_back_string (stored : option string) (t : string) :
  AsyncStorage.read_back stored = JStr t -> Js.truthy (JStr t) = true.
Proof.
  unfold AsyncStorage.read_back. destruct stored as [s |]; [| discriminate].
  destruct (Js.nonempty s) eqn:Hs; [| discriminate].
  intros [= <-]. exact Hs.
Qed.

(** C7. The navigation shell is in the Loading state (it shows only the
    loading indicator) exactly while the initial persisted-token load
    has not resolved, whatever sign-ins and sign-outs happen around it.
    Once the load resolves, the shell is Authenticated (the main stack
    is mounted) if a token was loaded, that is, if the read of the store
    returned a string, and Unauthenticated (only the login screen is
    mounted) if none was: the read returned [null] or was rejected.
    These are all the ways the read can end. *)
Theorem C7_shell_follows_token_load (env : Env) (store : gmap string string) (today : Z) :
  let started := launch store today in
  let resolved := exec AuthContext.loadToken env started in
  let loaded := outcome (AsyncStorage.getItem "userToken") env started in
  (forall events,
      shell (replay env events started) = Loading <-> load_resolved events = false)
  /\ (forall t, loaded = Return (JStr t) ->
                Session.userToken (auth resolved) = JStr t
                /\ shell resolved = Authenticated
                /\ screens (shell resolved) = ["Home"; "Upload"; "Search"; "Preview"])
  /\ (loaded = Return JNull \/ (exists e, loaded = Throw e) ->
      Session.userToken (auth resolved) = JNull
      /\ shell resolved = Unauthenticated
      /\ screens (shell resolved) = ["Login"])
  /\ ((exists t, loaded = Return (JStr t))
      \/ loaded = Return JNull
      \/ (exists e, loaded = Throw e)).
Proof.
  intros started resolved loaded.
  assert (Hauth : auth resolved = Session.mk (loaded_token env store) false)
    by apply loadToken_session.
  assert (Hloaded : loaded = match storage_fault env (GetItem "userToken") with
                             | Some e => Throw e
                             | None => Return (AsyncStorage.read_back (store !! "userToken"))
                             end)
    by apply getItem_outcome.
  split.
  { intros events. rewrite shell_Loading, replay_isLoading. simpl.
    now rewrite negb_true_iff. }
  unfold shell, AppContent. rewrite Hauth, Hloaded. unfold loaded_token. simpl.
  split; [| split].
  - intros t Ht. destruct (storage_fault env (GetItem "userToken")); [discriminate |].
    injection Ht as Ht. rewrite Ht. rewrite (read_back_string _ _ Ht). auto.
  - intros [Hnull | [e He]];
      destruct (storage_fault env (GetItem "userToken")); try discriminate; auto.
    injection Hnull as Hnull. rewrite Hnull. auto.
  - destruct (storage_fault env (GetItem "userToken")) as [e |]; [eauto |].
    unfold AsyncStorage.read_back. destruct (store !! "userToken") as [s |]; [| auto].
    destruct (Js.nonempty s); eauto.
Qed.

Lemma C7_shell_follows_token_load_witness :
  let resolved := exec AuthContext.loadToken (answering bad_gateway)
                       (launch {[ "userToken" := "abc" ]} 0) in
  Session.userToken (auth resolved) = JStr "abc"
  /\ shell resolved = Authenticated
  /\ screens (shell resolved) = ["Home"; "Upload"; "Search"; "Preview"].
Proof.
  apply (proj1 (proj2 (C7_shell_follows_token_load (answering bad_gateway)
                         {[ "userToken" := "abc" ]} 0)) "abc").
  reflexivity.
Defined.

(** ** Storage failures *)

(** C8. If the underlying storage operation fails, the initial load
    leaves the session exactly as a working load of a store without a
    token would (no token, loading finished, login screen), and
    [signIn] / [signOut] leave the in-memory session state unchanged;
    in each case the call completes normally: the storage failure is
    logged, not thrown to the caller. *)
Theorem C8_storage_failures_are_swallowed (env : Env) (e : JsError) :
  (storage_fault env (GetItem "userToken") = Some e ->
   forall store today,
     outcome AuthContext.loadToken env (launch store today) = Return tt
     /\ shell (exec AuthContext.loadToken env (launch store today)) = Unauthenticated
     /\ forall healthy,
          storage_fault healthy (GetItem "userToken") = None ->
          auth (exec AuthContext.loadToken env (launch store today))
          = auth (exec AuthContext.loadToken healthy
                       (launch (delete "userToken" store) today)))
  /\ (forall token a,
         storage_fault env (SetItem "userToken" token) = Some e ->
         outcome (AuthContext.signIn token) env a = Return tt
         /\ auth (exec (AuthContext.signIn token) env a) = auth a)
  /\ (forall a,
         storage_fault env (RemoveItem "userToken") = Some e ->
         outcome AuthContext.signOut env a = Return tt
         /\ auth (exec AuthContext.signOut env a) = auth a).
Proof.
  split; [| split].
  - intros Hfault store today. split; [apply loadToken_outcome |].
    unfold shell. rewrite loadToken_session. unfold loaded_token. rewrite Hfault.
    split; [reflexivity |].
    intros healthy Hhealthy. rewrite loadToken_session. unfold loaded_token.
    now rewrite Hhealthy, lookup_delete_eq.
  - intros token a Hfault. run. rewrite Hfault. simpl. split; reflexivity.
  - intros a Hfault. run. rewrite Hfault. simpl. split; reflexivity.
Qed.

Lemma C8_storage_failures_witness :
  let env := broken_storage (Error "Failed to open database") in
  outcome (AuthContext.signIn (JStr "abc")) env signed_out = Return tt
  /\ auth (exec (AuthContext.signIn (JStr "abc")) env signed_out) = auth signed_out.
Proof.
  apply (proj1 (proj2 (C8_storage_failures_are_swallowed
                         (broken_storage (Error "Failed to open database"))
                         (Error "Failed to open database")))
               (JStr "abc") signed_out).
  reflexivity.
Defined.

(** ** Login *)

Ltac unfold_login :=
  unfold LoginScreen.handleValidateOtp, LoginScreen.handleGenerateOtp,
         LoginScreen.setLoading, LoginScreen.setOtpSent in *.

(** C9. If the OTP-validation response has [success:true] but carries no
    [token] member, the login screen does not sign in: the store is not
    written, the session state stays as it was (so the shell stays
    where it was, Unauthenticated on the login screen), and an error
    alert is shown, with the server message or the default text. *)
Theorem C9_success_without_token_is_rejected (env : Env) (a : App)
    (resp : Response) (fields : list (string * JsValue)) :
  Js.nonempty (LoginForm.mobileNumber (login a)) = true ->
  Js.nonempty (LoginForm.otp (login a)) = true ->
  server env (validate_request (login a)) = Return resp ->
  json resp = Return (JObj fields) ->
  Js.assoc "success" fields = JBool true ->
  Js.assoc "token" fields = JUndefined ->
  let a' := exec LoginScreen.handleValidateOtp env a in
  disk a' = disk a
  /\ auth a' = auth a
  /\ shell a' = shell a
  /\ alerts a'
     = (alerts a
        ++ [("Error", Js.or (Js.assoc "message" fields)
                            (JStr "Invalid OTP. Please try again."))])%list.
Proof.
  intros Hmobile Hotp Hserver Hjson Hsuccess Htoken.
  unfold validate_request in Hserver.
  unfold exec, shell. unfold_login. unfold_services; unfold_device; unfold_monad. simpl.
  rewrite Hmobile, Hotp. simpl. rewrite Hserver. simpl. rewrite Hjson. simpl.
  rewrite Hsuccess. simpl. rewrite Htoken. simpl. auto.
Qed.

Lemma C9_success_without_token_witness :
  let env := answering (json_response 200 (JObj [("success", JBool true)])) in
  let a' := exec LoginScreen.handleValidateOtp env login_filled in
  disk a' = disk login_filled
  /\ auth a' = auth login_filled
  /\ shell a' = shell login_filled
  /\ alerts a' = [("Error", JStr "Invalid OTP. Please try again.")].
Proof.
  apply (C9_success_without_token_is_rejected
           (answering (json_response 200 (JObj [("success", JBool true)])))
           login_filled
           (json_response 200 (JObj [("success", JBool true)]))
           [("success", JBool true)]);
    reflexivity.
Defined.

(** ** The empty token *)

(** C10, as stated, fails in its last part. After [signIn('')] the
    empty string is in the store, but a fresh load does not return it:
    the read of the store resolves to [null]. *)
Lemma C10_fresh_load_counterexample :
  let env := answering bad_gateway in
  let a' := exec (AuthContext.signIn (JStr "")) env signed_out in
  disk a' !! "userToken" = Some ""
  /\ outcome (AsyncStorage.getItem "userToken") env (launch (disk a') 0) = Return JNull
  /\ outcome (AsyncStorage.getItem "userToken") env (launch (disk a') 0)
     <> Return (JStr "").
Proof. repeat split. discriminate. Qed.

(** C10, amended. After [signIn] with the empty-string token (storage
    working, initial load done), the navigation shell shows the login
    screen, although the empty string has been persisted and is the
    session token in memory: the shell tests the truthiness of the
    token, not the presence of a stored value. A fresh load reads the
    stored empty string back as no token, so the shell stays on the
    login screen after a restart. *)
Theorem C10_empty_token_shows_login (env : Env) (a : App) (today : Z) :
  storage_fault env (SetItem "userToken" (JStr "")) = None ->
  storage_fault env (GetItem "userToken") = None ->
  Session.isLoading (auth a) = false ->
  let a' := exec (AuthContext.signIn (JStr "")) env a in
  let restarted := exec AuthContext.loadToken env (launch (disk a') today) in
  shell a' = Unauthenticated
  /\ screens (shell a') = ["Login"]
  /\ disk a' !! "userToken" = Some ""
  /\ Session.userToken (auth a') = JStr ""
  /\ outcome (AsyncStorage.getItem "userToken") env (launch (disk a') today)
     = Return JNull
  /\ Session.userToken (auth restarted) = JNull
  /\ shell restarted = Unauthenticated.
Proof.
  intros Hset Hget Hloaded. unfold shell, AppContent. run.
  rewrite Hset, Hget. simpl. rewrite Hloaded, lookup_insert_eq. simpl. auto 10.
Qed.

Lemma C10_empty_token_witness :
  let env := answering bad_gateway in
  let a' := exec (AuthContext.signIn (JStr "")) env signed_out in
  let restarted := exec AuthContext.loadToken env (launch (disk a') 0) in
  shell a' = Unauthenticated
  /\ screens (shell a') = ["Login"]
  /\ disk a' !! "userToken" = Some ""
  /\ Session.userToken (auth a') = JStr ""
  /\ outcome (AsyncStorage.getItem "userToken") env (launch (disk a') 0) = Return JNull
  /\ Session.userToken (auth restarted) = JNull
  /\ shell restarted = Unauthenticated.
Proof.
  apply (C10_empty_token_shows_login (answering bad_gateway) signed_out 0); reflexivity.
Defined.

(** * Further properties of the code *)

(** ** services/DocumentService.js *)

(** A document call adds nothing to the network log, or the one
    request built from the token it read. *)
Lemma invoke_network (c : DocumentCall) (env : Env) (a : App) :
  network (exec (invoke c) env a) = network a
  \/ exists tok,
       storage_fault env (GetItem "userToken") = None
       /\ disk a !! "userToken" = Some tok
       /\ Js.nonempty tok = true
       /\ network (exec (invoke c) env a) = (network a ++ [request_of c (JStr tok)])%list.
Proof.
  destruct (storage_fault env (GetItem "userToken")) eqn:Hread.
  - left. destruct c; run; rewrite Hread; reflexivity.
  - destruct (disk a !! "userToken") as [tok |] eqn:Htok.
    + destruct (Js.nonempty tok) eqn:Hne.
      * right. exists tok. do 3 (split; [first [reflexivity | assumption] |]).
        destruct c; run; read_token Hread Htok Hne;
          repeat (case_scrutinee; simpl); reflexivity.
      * left. destruct c; run; rewrite Hread; simpl; rewrite Htok; simpl;
          rewrite Hne; reflexivity.
    + left. destruct c; run; rewrite Hread; simpl; rewrite Htok; reflexivity.
Qed.

(** X1. A document call sends at most one request, and a request it
    sends carries, in its [token] header, the non-empty token it read
    from the store; it never writes the store or any component state. *)
Theorem document_call_sends_one_authenticated_request
    (c : DocumentCall) (env : Env) (a : App) :
  let a' := exec (invoke c) env a in
  (network a' = network a
   \/ exists tok,
        storage_fault env (GetItem "userToken") = None
        /\ disk a !! "userToken" = Some tok
        /\ Js.nonempty tok = true
        /\ network a' = (network a ++ [request_of c (JStr tok)])%list)
  /\ disk a' = disk a /\ alerts a' = alerts a /\ auth a' = auth a
  /\ login a' = login a /\ upload a' = upload a /\ search a' = search a.
Proof.
  split; [apply invoke_network | apply invoke_frame].
Qed.

(** X2. A document call returns exactly when it read a non-empty token,
    the answer had a 2xx status and its body decoded; what it returns
    is that body, whatever it holds (the service does not look at
    [success]). *)
Theorem document_call_returns_iff_ok_json
    (c : DocumentCall) (env : Env) (a : App) (data : JsValue) :
  outcome (invoke c) env a = Return data
  <-> exists tok resp,
        storage_fault env (GetItem "userToken") = None
        /\ disk a !! "userToken" = Some tok
        /\ Js.nonempty tok = true
        /\ server env (request_of c (JStr tok)) = Return resp
        /\ ok resp = true
        /\ json resp = Return data.
Proof.
  split.
  - destruct c; run; unfold Js.nonempty;
      repeat (case_scrutinee; simpl); try discriminate.
    all: intros [= <-];
      match goal with H : negb (ok _) = false |- _ => apply negb_false_iff in H end;
      match goal with H : negb (negb _) = false |- _ => apply negb_false_iff in H end;
      eauto 10.
  - intros (tok & resp & Hread & Htok & Hne & Hserver & Hok & Hjson).
    destruct c; simpl in Hserver; run; read_token Hread Htok Hne; rewrite Hserver; simpl; rewrite Hjson; simpl; rewrite Hok;
      reflexivity.
Qed.

(** X3. Every fault of a document call is logged exactly once, under
    the label of the call, and then rethrown unchanged; a call that
    returns logs nothing. *)
Theorem document_call_logs_its_fault (c : DocumentCall) (env : Env) (a : App) :
  console (exec (invoke c) env a)
  = match outcome (invoke c) env a with
    | Throw e => (console a ++ [(log_label c, e)])%list
    | Return _ => console a
    end.
Proof.
  destruct c; run; repeat (case_scrutinee; simpl); reflexivity.
Qed.

(** X4. A stored empty string is no session: with [''] under the token
    key each document call throws the missing-session fault and sends
    nothing, exactly as with no token at all. *)
Theorem empty_stored_token_is_missing_session (c : DocumentCall) (env : Env) (a : App) :
  disk a !! "userToken" = Some "" ->
  storage_fault env (GetItem "userToken") = None ->
  outcome (invoke c) env a
    = Throw (Error "Authentication token not found. Please log in again.")
  /\ network (exec (invoke c) env a) = network a.
Proof.
  intros Hstored Hread. destruct c; run; rewrite Hread; simpl; rewrite Hstored; auto.
Qed.

Lemma empty_stored_token_witness :
  outcome (invoke (ListTags (JStr ""))) (answering bad_gateway) (signed_in "")
    = Throw (Error "Authentication token not found. Please log in again.")
  /\ network (exec (invoke (ListTags (JStr ""))) (answering bad_gateway) (signed_in ""))
     = network (signed_in "").
Proof.
  apply (empty_stored_token_is_missing_session (ListTags (JStr ""))
           (answering bad_gateway) (signed_in ""));
    reflexivity.
Defined.

(** X5. Unlike the session holder, the document calls do not swallow
    what the environment throws. A rejected storage read is thrown to
    the caller before anything is sent; a rejected [fetch] is thrown to
    the caller after the one request went out. *)
Theorem document_call_rethrows_environment_faults
    (c : DocumentCall) (env : Env) (a : App) (e : JsError) :
  (storage_fault env (GetItem "userToken") = Some e ->
   outcome (invoke c) env a = Throw e
   /\ network (exec (invoke c) env a) = network a)
  /\ (forall tok,
         storage_fault env (GetItem "userToken") = None ->
         disk a !! "userToken" = Some tok ->
         Js.nonempty tok = true ->
         server env (request_of c (JStr tok)) = Throw e ->
         outcome (invoke c) env a = Throw e
         /\ network (exec (invoke c) env a)
            = (network a ++ [request_of c (JStr tok)])%list).
Proof.
  split.
  - intros Hread. destruct c; run; rewrite Hread; auto.
  - intros tok Hread Htok Hne Hserver.
    destruct c; simpl in Hserver; run; read_token Hread Htok Hne; rewrite Hserver; auto.
Qed.

Lemma document_call_rethrows_witness :
  outcome (invoke (SearchDocuments (JObj []))) (broken_storage (Error "Failed to open database"))
          (signed_in "abc")
    = Throw (Error "Failed to open database")
  /\ network (exec (invoke (SearchDocuments (JObj [])))
                   (broken_storage (Error "Failed to open database")) (signed_in "abc"))
     = network (signed_in "abc").
Proof.
  apply (proj1 (document_call_rethrows_environment_faults (SearchDocuments (JObj []))
                  (broken_storage (Error "Failed to open database")) (signed_in "abc")
                  (Error "Failed to open database"))).
  reflexivity.
Defined.

(** ** services/AuthService.js *)

(** X6. The two OTP calls send their one request without reading or
    writing the store, pay no attention to the HTTP status (a decoded
    body is returned even on a non-2xx answer), and replace every
    failure, a rejected [fetch] or an undecodable body alike, by one
    fixed fault; the original fault only reaches the console. *)
Theorem auth_service_masks_failures (s : LoginForm.State) (env : Env) (a : App) :
  let validated := AuthService.validateOTP (LoginForm.mobileNumber s) (LoginForm.otp s) in
  let generated := AuthService.generateOTP (LoginForm.mobileNumber s) in
  (outcome validated env a
   = match decoded_answer env (validate_request s) with
     | Some data => Return data
     | None => Throw (Error "Network error or failed to validate OTP. Please try again.")
     end
   /\ network (exec validated env a) = (network a ++ [validate_request s])%list
   /\ disk (exec validated env a) = disk a
   /\ auth (exec validated env a) = auth a)
  /\ (outcome generated env a
      = match decoded_answer env (generate_request s) with
        | Some data => Return data
        | None =>
            Throw (Error "Network error or failed to generate OTP. Please check your connection.")
        end
      /\ network (exec generated env a) = (network a ++ [generate_request s])%list
      /\ disk (exec generated env a) = disk a
      /\ auth (exec generated env a) = auth a).
Proof.
  unfold decoded_answer, validate_request, generate_request. run.
  split.
  - destruct (server env _) as [resp | e]; simpl; [destruct (json resp); simpl |]; auto.
  - destruct (server env _) as [resp | e]; simpl; [destruct (json resp); simpl |]; auto.
Qed.

(** ** screens/LoginScreen.js *)

(** The guard of each login handler, as one state update. *)
Lemma login_guard_alerts (env : Env) (a : App) :
  (LoginForm.mobileNumber (login a) = "" ->
   exec LoginScreen.handleGenerateOtp env a
   = with_alerts (fun l => (l ++ [("Input Error", JStr "Please enter your mobile number.")])%list) a)
  /\ (LoginForm.mobileNumber (login a) = "" \/ LoginForm.otp (login a) = "" ->
      exec LoginScreen.handleValidateOtp env a
      = with_alerts
          (fun l => (l ++ [("Input Error", JStr "Please enter both mobile number and OTP.")])%list)
          a).
Proof.
  split.
  - intros Hm. unfold exec. unfold_login. unfold_device. unfold_monad. simpl.
    now rewrite Hm.
  - intros H. unfold exec. unfold_login. unfold_device. unfold_monad. simpl.
    destruct H as [H | H]; rewrite H; simpl; [reflexivity |].
    now rewrite orb_true_r.
Qed.

(** X7. Both login handlers refuse an incomplete form locally: with no
    mobile number ([handleGenerateOtp]) or with the number or the code
    missing ([handleValidateOtp]) the only effect is one "Input Error"
    alert; no request is sent, the store and the session are untouched
    and the form, its busy flag included, is as it was. *)
Theorem login_handlers_require_their_inputs (env : Env) (a : App) :
  (LoginForm.mobileNumber (login a) = "" ->
   let a' := exec LoginScreen.handleGenerateOtp env a in
   network a' = network a /\ disk a' = disk a /\ auth a' = auth a /\ login a' = login a
   /\ alerts a' = (alerts a ++ [("Input Error", JStr "Please enter your mobile number.")])%list)
  /\ (LoginForm.mobileNumber (login a) = "" \/ LoginForm.otp (login a) = "" ->
      let a' := exec LoginScreen.handleValidateOtp env a in
      network a' = network a /\ disk a' = disk a /\ auth a' = auth a /\ login a' = login a
      /\ alerts a'
         = (alerts a ++ [("Input Error", JStr "Please enter both mobile number and OTP.")])%list).
Proof.
  destruct (login_guard_alerts env a) as [Hgen Hval]. split.
  - intros H. simpl. rewrite (Hgen H). simpl. auto.
  - intros H. simpl. rewrite (Hval H). simpl. auto.
Qed.

Lemma login_handlers_require_their_inputs_witness :
  let a' := exec LoginScreen.handleValidateOtp (answering bad_gateway) signed_out in
  network a' = network signed_out /\ disk a' = disk signed_out
  /\ auth a' = auth signed_out /\ login a' = login signed_out
  /\ alerts a' = [("Input Error", JStr "Please enter both mobile number and OTP.")].
Proof.
  apply (proj2 (login_handlers_require_their_inputs (answering bad_gateway) signed_out)).
  left. reflexivity.
Defined.

(** X8. With a mobile number entered, [handleGenerateOtp] sends the one
    request and shows exactly one alert; the form moves on to the code
    step ([otpSent]) exactly when the decoded answer has a truthy
    [success] (whatever the HTTP status), and otherwise stays where it
    was with an "Error" alert. The number and the code typed so far are
    kept, the busy flag is off again, store and session are untouched. *)
Theorem generate_otp_advances_on_success_only (env : Env) (a : App) :
  Js.nonempty (LoginForm.mobileNumber (login a)) = true ->
  let a' := exec LoginScreen.handleGenerateOtp env a in
  let sent := accepted env (generate_request (login a)) in
  login a' = LoginForm.mk (LoginForm.mobileNumber (login a)) (LoginForm.otp (login a))
                          (sent || LoginForm.otpSent (login a)) false
  /\ network a' = (network a ++ [generate_request (login a)])%list
  /\ (exists text,
        alerts a' = (alerts a ++ [(if sent then "Success" else "Error", text)])%list)
  /\ disk a' = disk a /\ auth a' = auth a.
Proof.
  intros Hm. unfold accepted, decoded_answer, generate_request.
  unfold exec. unfold_login. unfold_services. unfold_device. unfold_monad. simpl.
  rewrite Hm. simpl.
  destruct (server env _) as [resp | e]; simpl; [destruct (json resp) as [data | e]; simpl |].
  - destruct data; simpl; eauto 10.
    destruct (Js.truthy (Js.assoc "success" fields)); simpl; eauto 10.
  - eauto 10.
  - eauto 10.
Qed.

Lemma generate_otp_advances_witness :
  let env := answering (json_response 200 (JObj [("success", JBool true)])) in
  let a := with_login (fun _ => LoginForm.mk "9999999999" "" false false) signed_out in
  LoginForm.otpSent (login (exec LoginScreen.handleGenerateOtp env a)) = true.
Proof.
  exact (f_equal LoginForm.otpSent
           (proj1 (generate_otp_advances_on_success_only
                     (answering (json_response 200 (JObj [("success", JBool true)])))
                     (with_login (fun _ => LoginForm.mk "9999999999" "" false false) signed_out)
                     eq_refl))).
Defined.

(** X9. A redeemed code signs the user in: when the decoded answer has a
    truthy [success] and a non-empty string [token], and the store
    accepts the write, [handleValidateOtp] persists exactly that token,
    makes it the session token, so that the shell (once the initial load
    is over) is Authenticated, and alerts "Login successful!". *)
Theorem validate_otp_signs_in (env : Env) (a : App)
    (resp : Response) (fields : list (string * JsValue)) (t : string) :
  Js.nonempty (LoginForm.mobileNumber (login a)) = true ->
  Js.nonempty (LoginForm.otp (login a)) = true ->
  server env (validate_request (login a)) = Return resp ->
  json resp = Return (JObj fields) ->
  Js.truthy (Js.assoc "success" fields) = true ->
  Js.assoc "token" fields = JStr t ->
  Js.nonempty t = true ->
  storage_fault env (SetItem "userToken" (JStr t)) = None ->
  Session.isLoading (auth a) = false ->
  let a' := exec LoginScreen.handleValidateOtp env a in
  disk a' = <["userToken" := t]> (disk a)
  /\ Session.userToken (auth a') = JStr t
  /\ shell a' = Authenticated
  /\ alerts a' = (alerts a ++ [("Success", JStr "Login successful!")])%list
  /\ network a' = (network a ++ [validate_request (login a)])%list
  /\ LoginForm.loading (login a') = false.
Proof.
  intros Hmobile Hotp Hserver Hjson Hsuccess Htoken Ht Hset Hloaded.
  unfold validate_request in *. unfold Js.nonempty in Ht.
  unfold exec, shell, AppContent. unfold_login. unfold_services; unfold_device; unfold_monad.
  simpl. rewrite Hmobile, Hotp. simpl. rewrite Hserver. simpl. rewrite Hjson. simpl.
  rewrite Hsuccess. simpl. rewrite Htoken. simpl. rewrite Ht. simpl.
  rewrite Hset. simpl. rewrite Hloaded, Ht. auto 10.
Qed.

Lemma validate_otp_signs_in_witness :
  let env := answering (json_response 200 (JObj [("success", JBool true);
                                                 ("token", JStr "abc")])) in
  let a' := exec LoginScreen.handleValidateOtp env login_filled in
  disk a' = <["userToken" := "abc"]> (disk login_filled)
  /\ Session.userToken (auth a') = JStr "abc"
  /\ shell a' = Authenticated
  /\ alerts a' = (alerts login_filled ++ [("Success", JStr "Login successful!")])%list
  /\ network a' = (network login_filled ++ [validate_request (login login_filled)])%list
  /\ LoginForm.loading (login a') = false.
Proof.
  apply (validate_otp_signs_in
           (answering (json_response 200 (JObj [("success", JBool true);
                                                ("token", JStr "abc")])))
           login_filled
           (json_response 200 (JObj [("success", JBool true); ("token", JStr "abc")]))
           [("success", JBool true); ("token", JStr "abc")] "abc");
    reflexivity.
Defined.

(** X10. [handleValidateOtp] does not learn whether [signIn] stored the
    token: if the store rejects the write, the session and the store
    stay as they were (the shell does not move), and the user is still
    told "Login successful!". *)
Theorem validate_otp_reports_success_when_store_fails (env : Env) (a : App)
    (resp : Response) (fields : list (string * JsValue)) (token : JsValue) (e : JsError) :
  Js.nonempty (LoginForm.mobileNumber (login a)) = true ->
  Js.nonempty (LoginForm.otp (login a)) = true ->
  server env (validate_request (login a)) = Return resp ->
  json resp = Return (JObj fields) ->
  Js.truthy (Js.assoc "success" fields) = true ->
  Js.assoc "token" fields = token ->
  Js.truthy token = true ->
  storage_fault env (SetItem "userToken" token) = Some e ->
  let a' := exec LoginScreen.handleValidateOtp env a in
  disk a' = disk a
  /\ auth a' = auth a
  /\ shell a' = shell a
  /\ alerts a' = (alerts a ++ [("Success", JStr "Login successful!")])%list
  /\ console a'
     = (console a ++ [("Failed to save token to AsyncStorage:", e)])%list.
Proof.
  intros Hmobile Hotp Hserver Hjson Hsuccess Htoken Htruthy Hset.
  unfold validate_request in *.
  unfold exec, shell. unfold_login. unfold_services; unfold_device; unfold_monad.
  simpl. rewrite Hmobile, Hotp. simpl. rewrite Hserver. simpl. rewrite Hjson. simpl.
  rewrite Hsuccess. simpl. rewrite Htoken. simpl. rewrite Htruthy. simpl.
  rewrite Hset. simpl. auto 10.
Qed.

Lemma validate_otp_reports_success_witness :
  let env := mkEnv (fun _ => Return (json_response 200 (JObj [("success", JBool true);
                                                              ("token", JStr "abc")])))
                   (fun _ => Some (Error "Failed to open database")) 0 in
  let a' := exec LoginScreen.handleValidateOtp env login_filled in
  shell a' = Unauthenticated
  /\ alerts a' = [("Success", JStr "Login successful!")].
Proof.
  pose proof (validate_otp_reports_success_when_store_fails
                (mkEnv (fun _ => Return (json_response 200 (JObj [("success", JBool true);
                                                                  ("token", JStr "abc")])))
                       (fun _ => Some (Error "Failed to open database")) 0)
                login_filled
                (json_response 200 (JObj [("success", JBool true); ("token", JStr "abc")]))
                [("success", JBool true); ("token", JStr "abc")] (JStr "abc")
                (Error "Failed to open database")
                eq_refl eq_refl eq_refl eq_refl eq_refl eq_refl eq_refl eq_refl) as H.
  split.
  - exact (proj1 (proj2 (proj2 H))).
  - exact (proj1 (proj2 (proj2 (proj2 H)))).
Defined.

(** X11. [handleValidateOtp] changes the store or the session only when
    the decoded answer has both a truthy [success] and a truthy [token]:
    a rejected request, an undecodable body, a refusal or a missing
    token never signs anyone in. *)
Theorem validate_otp_signs_in_only_on_token (env : Env) (a : App) :
  let a' := exec LoginScreen.handleValidateOtp env a in
  (disk a' <> disk a \/ auth a' <> auth a) ->
  exists data,
    decoded_answer env (validate_request (login a)) = Some data
    /\ Js.truthy (member "success" data) = true
    /\ Js.truthy (member "token" data) = true.
Proof.
  unfold decoded_answer, validate_request.
  unfold exec. unfold_login. unfold_services; unfold_device; unfold_monad. simpl.
  destruct (negb (Js.nonempty (LoginForm.mobileNumber (login a)))
            || negb (Js.nonempty (LoginForm.otp (login a)))); simpl;
    [intros [H | H]; congruence |].
  destruct (server env _) as [resp | e0]; simpl; [| intros [H | H]; congruence].
  destruct (json resp) as [data | e0]; simpl; [| intros [H | H]; congruence].
  destruct data; simpl; try (intros [H | H]; congruence).
  destruct (Js.truthy (Js.assoc "success" fields)) eqn:Hsuccess; simpl;
    [| rewrite Hsuccess; simpl; intros [H | H]; congruence].
  destruct (Js.truthy (Js.assoc "token" fields)) eqn:Htoken; simpl;
    [| intros [H | H]; congruence].
  intros _. exists (JObj fields). auto.
Qed.

Lemma validate_otp_signs_in_only_witness :
  let env := answering (json_response 200 (JObj [("success", JBool true);
                                                 ("token", JStr "abc")])) in
  exists data,
    decoded_answer env (validate_request (login login_filled)) = Some data
    /\ Js.truthy (member "success" data) = true
    /\ Js.truthy (member "token" data) = true.
Proof.
  apply (validate_otp_signs_in_only_on_token
           (answering (json_response 200 (JObj [("success", JBool true);
                                                ("token", JStr "abc")])))
           login_filled).
  right. vm_compute. discriminate.
Defined.

(** ** context/AuthContext.js and App.js *)

Lemma read_back_truthy (stored : option string) :
  (if Js.truthy (AsyncStorage.read_back stored) then AsyncStorage.read_back stored else JNull)
  = AsyncStorage.read_back stored.
Proof.
  unfold AsyncStorage.read_back. destruct stored as [s |]; [| reflexivity].
  destruct (Js.nonempty s) eqn:Hs; [| reflexivity]. simpl.
  unfold Js.nonempty in Hs. now rewrite Hs.
Qed.

Lemma handle_mirrors_store (env : Env) (ev : SessionEvent) (a : App) :
  storage_fault env (GetItem "userToken") = None ->
  is_load ev = true \/ mirrors_store a ->
  mirrors_store (exec (handle ev) env a).
Proof.
  intros Hread Hpre. unfold mirrors_store, stored_token in *.
  destruct ev as [| token |]; simpl in Hpre; unfold handle.
  - run. rewrite Hread. simpl. symmetry. apply read_back_truthy.
  - destruct Hpre as [Hpre | Hpre]; [discriminate |]. run.
    destruct (storage_fault env (SetItem "userToken" token)); simpl; [exact Hpre |].
    destruct token; simpl; try exact Hpre.
    rewrite lookup_insert_eq. unfold Js.nonempty. now destruct (negb (String.eqb s "")).
  - destruct Hpre as [Hpre | Hpre]; [discriminate |]. run.
    destruct (storage_fault env (RemoveItem "userToken")); simpl; [exact Hpre |].
    now rewrite lookup_delete_eq.
Qed.

Lemma replay_mirrors_store (env : Env) (events : list SessionEvent) (a : App) :
  storage_fault env (GetItem "userToken") = None ->
  load_resolved events = true \/ mirrors_store a ->
  mirrors_store (replay env events a).
Proof.
  intros Hread. revert a. induction events as [| ev rest IH]; intros a Hpre.
  - destruct Hpre as [Hpre | Hpre]; [discriminate | exact Hpre].
  - simpl. apply IH. simpl in Hpre.
    destruct (is_load ev) eqn:Hev.
    + right. apply handle_mirrors_store; auto.
    + destruct Hpre as [Hpre | Hpre]; [left; exact Hpre |].
      right. apply handle_mirrors_store; auto.
Qed.

Lemma handle_equals_store (env : Env) (ev : SessionEvent) (a : App) :
  storage_fault env (GetItem "userToken") = None ->
  signs_in_truthy ev = true ->
  is_load ev = true \/ Session.userToken (auth a) = stored_token (disk a) ->
  Session.userToken (auth (exec (handle ev) env a))
  = stored_token (disk (exec (handle ev) env a)).
Proof.
  intros Hread Htruthy Hpre. unfold stored_token in *.
  destruct ev as [| token |]; simpl in Hpre, Htruthy; unfold handle.
  - run. rewrite Hread. reflexivity.
  - destruct Hpre as [Hpre | Hpre]; [discriminate |]. run.
    destruct (storage_fault env (SetItem "userToken" token)); simpl; [exact Hpre |].
    destruct token; simpl; try exact Hpre.
    rewrite lookup_insert_eq. unfold Js.nonempty. simpl in Htruthy. now rewrite Htruthy.
  - destruct Hpre as [Hpre | Hpre]; [discriminate |]. run.
    destruct (storage_fault env (RemoveItem "userToken")); simpl; [exact Hpre |].
    now rewrite lookup_delete_eq.
Qed.

Lemma replay_equals_store (env : Env) (events : list SessionEvent) (a : App) :
  storage_fault env (GetItem "userToken") = None ->
  forallb signs_in_truthy events = true ->
  load_resolved events = true \/ Session.userToken (auth a) = stored_token (disk a) ->
  Session.userToken (auth (replay env events a))
  = stored_token (disk (replay env events a)).
Proof.
  intros Hread. revert a. induction events as [| ev rest IH]; intros a Htruthy Hpre.
  - destruct Hpre as [Hpre | Hpre]; [discriminate | exact Hpre].
  - simpl in *. apply andb_true_iff in Htruthy as [Hev Hrest].
    apply IH; [exact Hrest |].
    destruct (is_load ev) eqn:Hload.
    + right. apply handle_equals_store; auto.
    + destruct Hpre as [Hpre | Hpre]; [left; exact Hpre |].
      right. apply handle_equals_store; auto.
Qed.

(** X12. Once the initial load has resolved (its read succeeding), the
    session token and the store agree after any sequence of sign-ins
    and sign-outs, including ones whose storage write fails: the store
    reads back as the session token when that is truthy and as no token
    when it is not (an empty-string token is stored, but reads back as
    none). When every sign-in carries a truthy token, as the login
    screen guarantees, the session token is exactly what the store
    reads back as. *)
Theorem session_mirrors_store (env : Env) (events : list SessionEvent) (a : App) :
  storage_fault env (GetItem "userToken") = None ->
  load_resolved events = true ->
  let a' := replay env events a in
  stored_token (disk a')
  = (if Js.truthy (Session.userToken (auth a')) then Session.userToken (auth a') else JNull)
  /\ (forallb signs_in_truthy events = true ->
      Session.userToken (auth a') = stored_token (disk a')).
Proof.
  intros Hread Hloaded. split.
  - apply replay_mirrors_store; auto.
  - intros Htruthy. apply replay_equals_store; auto.
Qed.

Lemma session_mirrors_store_witness :
  let env := answering bad_gateway in
  let events := [LoadResolves; SignIn (JStr "abc"); SignOut; SignIn (JStr "")] in
  let a' := replay env events (launch {[ "userToken" := "" ]} 0) in
  stored_token (disk a')
  = (if Js.truthy (Session.userToken (auth a')) then Session.userToken (auth a') else JNull).
Proof.
  apply (proj1 (session_mirrors_store (answering bad_gateway)
                  [LoadResolves; SignIn (JStr "abc"); SignOut; SignIn (JStr "")]
                  (launch {[ "userToken" := "" ]} 0) eq_refl eq_refl)).
Defined.

(** X13. The navigation shell and the document API agree. In any state
    the application reaches from start-up (storage reads working), a
    document call made while the shell is Authenticated sends its
    request with the session token, and one made while the shell is
    Unauthenticated throws the missing-session fault and sends nothing. *)
Theorem shell_decides_document_calls
    (env : Env) (events : list SessionEvent) (store : gmap string string) (today : Z)
    (c : DocumentCall) :
  storage_fault env (GetItem "userToken") = None ->
  let a := replay env events (launch store today) in
  (shell a = Authenticated ->
   network (exec (invoke c) env a)
   = (network a ++ [request_of c (Session.userToken (auth a))])%list)
  /\ (shell a = Unauthenticated ->
      outcome (invoke c) env a
        = Throw (Error "Authentication token not found. Please log in again.")
      /\ network (exec (invoke c) env a) = network a).
Proof.
  intros Hread a.
  assert (Hmirror : shell a <> Loading -> mirrors_store a).
  { intros Hshell. apply replay_mirrors_store; [exact Hread |]. left.
    destruct (load_resolved events) eqn:Hlr; [reflexivity |].
    exfalso. apply Hshell. apply shell_Loading.
    unfold a. rewrite replay_isLoading, Hlr. reflexivity. }
  unfold mirrors_store, stored_token, AsyncStorage.read_back in Hmirror.
  unfold shell, AppContent in *.
  destruct (Session.isLoading (auth a)); [split; discriminate |].
  specialize (Hmirror ltac:(destruct (Js.truthy _); discriminate)).
  destruct (Js.truthy (Session.userToken (auth a))) eqn:Htruthy.
  - split; [intros _ | discriminate].
    destruct (disk a !! "userToken") as [tok |] eqn:Htok;
      [| rewrite <- Hmirror in Htruthy; discriminate].
    destruct (Js.nonempty tok) eqn:Hne;
      [| rewrite <- Hmirror in Htruthy; discriminate].
    rewrite <- Hmirror.
    destruct c; run; read_token Hread Htok Hne;
      repeat (case_scrutinee; simpl); reflexivity.
  - split; [discriminate | intros _].
    destruct (disk a !! "userToken") as [tok |] eqn:Htok.
    + destruct (Js.nonempty tok) eqn:Hne; [discriminate Hmirror |].
      destruct c; run; rewrite Hread; simpl; rewrite Htok; simpl; rewrite Hne; auto.
    + destruct c; run; rewrite Hread; simpl; rewrite Htok; auto.
Qed.

Lemma shell_decides_document_calls_witness :
  let env := answering (json_response 200 (JObj [("success", JBool true)])) in
  let a := replay env [LoadResolves; SignOut] (launch {[ "userToken" := "abc" ]} 0) in
  outcome (invoke (ListTags (JStr ""))) env a
    = Throw (Error "Authentication token not found. Please log in again.")
  /\ network (exec (invoke (ListTags (JStr ""))) env a) = network a.
Proof.
  apply (proj2 (shell_decides_document_calls
                  (answering (json_response 200 (JObj [("success", JBool true)])))
                  [LoadResolves; SignOut] {[ "userToken" := "abc" ]} 0
                  (ListTags (JStr "")) eq_refl)).
  reflexivity.
Defined.

(** ** screens/UploadScreen.js: submission *)

(** X14. An incomplete upload form is refused locally. Without a file,
    without both heads, or without a tag, [handleSubmit] shows one
    "Validation Error" alert and does nothing else: no request, no
    busy flag, no field touched. The file is checked first. *)
Theorem upload_refuses_incomplete_form (env : Env) (a : App) :
  submittable (upload a) = false ->
  exists msg,
    exec UploadScreen.handleSubmit env a
    = with_alerts (fun l => (l ++ [("Validation Error", JStr msg)])%list) a
    /\ (Js.truthy (UploadForm.selectedFile (upload a)) = false ->
        msg = "Please select a file to upload.").
Proof.
  unfold submittable. intros Hinvalid.
  unfold exec, UploadScreen.handleSubmit. unfold_device. unfold_monad. simpl.
  destruct (Js.truthy (UploadForm.selectedFile (upload a))); simpl in *.
  - destruct (Js.nonempty (UploadForm.majorHead (upload a))); simpl in *;
      [| eexists; split; [reflexivity | discriminate]].
    destruct (Js.nonempty (UploadForm.minorHead (upload a))); simpl in *;
      [| eexists; split; [reflexivity | discriminate]].
    destruct (length (UploadForm.tags (upload a)) =? 0)%nat; simpl in *;
      [| discriminate].
    eexists; split; [reflexivity | discriminate].
  - eexists; split; reflexivity.
Qed.

Lemma upload_refuses_incomplete_form_witness :
  exists msg,
    exec UploadScreen.handleSubmit (answering bad_gateway) (signed_in "abc")
    = with_alerts (fun l => (l ++ [("Validation Error", JStr msg)])%list) (signed_in "abc")
    /\ (Js.truthy (UploadForm.selectedFile (upload (signed_in "abc"))) = false ->
        msg = "Please select a file to upload.").
Proof.
  apply (upload_refuses_incomplete_form (answering bad_gateway) (signed_in "abc")).
  reflexivity.
Defined.

(** X15. An accepted upload empties the form. For a complete form, a
    stored token and a 2xx answer whose decoded body has a truthy
    [success], [handleSubmit] sends the one multipart request built from
    the form, alerts success, and resets every field (the date to the
    current time, the file to none) while keeping the tag catalogue. *)
Theorem upload_success_resets_form (env : Env) (a : App)
    (tok : string) (resp : Response) (data : JsValue) :
  submittable (upload a) = true ->
  disk a !! "userToken" = Some tok ->
  Js.nonempty tok = true ->
  storage_fault env (GetItem "userToken") = None ->
  server env (request_of (upload_call (upload a)) (JStr tok)) = Return resp ->
  ok resp = true ->
  json resp = Return data ->
  Js.truthy (member "success" data) = true ->
  let a' := exec UploadScreen.handleSubmit env a in
  upload a' = UploadForm.mk (now env) "" "" "" [] "" (UploadForm.availableTags (upload a))
                            JNull false
  /\ alerts a' = (alerts a ++ [("Success", JStr "Document uploaded successfully!")])%list
  /\ network a' = (network a ++ [request_of (upload_call (upload a)) (JStr tok)])%list.
Proof.
  destruct a as [dk nw cs al au lg [dd mj mn rk tg nt av sf ld] sr].
  unfold submittable, upload_call, request_of. simpl.
  intros Hvalid Htok Hne Hread Hserver Hok Hjson Hsuccess.
  apply andb_true_iff in Hvalid as [Hvalid Htags].
  apply andb_true_iff in Hvalid as [Hvalid Hminor].
  apply andb_true_iff in Hvalid as [Hfile Hmajor].
  apply negb_true_iff in Htags.
  assert (Hprop : forall k env' a', prop sf k env' a' = (Return (member k sf), a')).
  { intros k env' a'. destruct sf; try discriminate Hfile; reflexivity. }
  unfold exec, UploadScreen.handleSubmit. unfold_monad. simpl.
  rewrite Hfile, Hmajor, Hminor, Htags. simpl. rewrite !Hprop. simpl.
  unfold_services; unfold_device; unfold_upload; unfold_monad. simpl.
  read_token Hread Htok Hne.
  rewrite Hserver. simpl. rewrite Hjson. simpl. rewrite Hok. simpl.
  destruct data; try discriminate Hsuccess; simpl in *.
  rewrite Hsuccess. simpl. auto.
Qed.

Lemma upload_success_resets_form_witness :
  let env := answering (json_response 200 (JObj [("success", JBool true)])) in
  let a' := exec UploadScreen.handleSubmit env upload_filled in
  upload a' = UploadForm.mk (now env) "" "" "" [] ""
                            (UploadForm.availableTags (upload upload_filled)) JNull false
  /\ alerts a'
     = (alerts upload_filled ++ [("Success", JStr "Document uploaded successfully!")])%list
  /\ network a'
     = (network upload_filled
        ++ [request_of (upload_call (upload upload_filled)) (JStr "abc")])%list.
Proof.
  apply (upload_success_resets_form
           (answering (json_response 200 (JObj [("success", JBool true)])))
           upload_filled "abc"
           (json_response 200 (JObj [("success", JBool true)]))
           (JObj [("success", JBool true)]));
    reflexivity.
Defined.

(** X16. Whatever the environment does, one press of the upload button
    shows exactly one alert, sends at most one request (the one built
    from the form, carrying the stored token), never touches the store,
    the session, the other screens or the tag catalogue, and, once the
    form passed validation, ends with the busy flag off. *)
Theorem upload_submit_frame (env : Env) (a : App) :
  let a' := exec UploadScreen.handleSubmit env a in
  disk a' = disk a /\ auth a' = auth a /\ login a' = login a /\ search a' = search a
  /\ UploadForm.availableTags (upload a') = UploadForm.availableTags (upload a)
  /\ length (alerts a') = S (length (alerts a))
  /\ (network a' = network a
      \/ exists tok,
           disk a !! "userToken" = Some tok
           /\ Js.nonempty tok = true
           /\ network a'
              = (network a ++ [request_of (upload_call (upload a)) (JStr tok)])%list)
  /\ (submittable (upload a) = true -> UploadForm.loading (upload a') = false).
Proof.
  destruct a as [dk nw cs al au lg [dd mj mn rk tg nt av sf ld] sr].
  unfold submittable, exec, UploadScreen.handleSubmit, upload_call.
  unfold_device. unfold_monad. simpl.
  destruct (Js.truthy sf) eqn:Hfile; simpl;
    [| rewrite length_app, Nat.add_1_r; repeat split; auto; discriminate].
  destruct (Js.nonempty mj); simpl;
    [| rewrite length_app, Nat.add_1_r; repeat split; auto; discriminate].
  destruct (Js.nonempty mn); simpl;
    [| rewrite length_app, Nat.add_1_r; repeat split; auto; discriminate].
  destruct tg as [| tag tg]; simpl;
    [rewrite length_app, Nat.add_1_r; repeat split; auto; discriminate |].
  destruct sf; try discriminate Hfile; simpl.
  all: match goal with
       | |- context [DocumentService.uploadDocument ?u ?n ?t ?d ?ev ?a1] =>
           pose proof (invoke_frame (CreateDocument u n t d) ev a1) as Hframe;
           pose proof (invoke_network (CreateDocument u n t d) ev a1) as Hnet;
           unfold exec in Hframe, Hnet; simpl in Hframe, Hnet;
           destruct (DocumentService.uploadDocument u n t d ev a1) as [r a2]
       end;
    destruct a2 as [dk2 nw2 cs2 al2 au2 lg2 up2 sr2]; simpl in Hframe, Hnet;
    destruct Hframe as (-> & -> & -> & -> & -> & ->);
    unfold_upload; unfold_monad;
    destruct r as [data | e]; simpl;
    [destruct data; simpl;
     try match goal with
         | |- context [Js.truthy (Js.assoc "success" ?f)] =>
             destruct (Js.truthy (Js.assoc "success" f)); simpl
         end |];
    do 5 (split; [reflexivity |]);
    (split; [rewrite length_app; simpl; lia |]);
    (split;
       [destruct Hnet as [-> | (tok & _ & Htok & Hne & ->)];
        [left; reflexivity | right; exists tok; repeat split; assumption]
       | intros _; reflexivity]).
Qed.

(** ** screens/SearchScreen.js: the search *)

(** X17. The result list shows a server page or nothing. After
    [handleSearch], the list is exactly the [data] array of a 2xx answer
    whose decoded body has a truthy [success] (as sent: no client-side
    filtering, sorting or paging), and in every other case it is empty:
    earlier results never survive a search. *)
Theorem search_results_are_a_server_page (env : Env) (a : App) :
  let a' := exec SearchScreen.handleSearch env a in
  SearchForm.searchResults (search a') = []
  \/ exists tok resp data,
       disk a !! "userToken" = Some tok
       /\ server env (request_of (search_call (search a)) (JStr tok)) = Return resp
       /\ ok resp = true
       /\ json resp = Return data
       /\ Js.truthy (member "success" data) = true
       /\ member "data" data = JArr (SearchForm.searchResults (search a')).
Proof.
  destruct a as [dk nw cs al au lg up [mj mn tg nt av fd td rs ld]].
  unfold exec, SearchScreen.handleSearch, search_call. unfold_monad. simpl.
  match goal with
  | |- context [DocumentService.searchDocuments ?d ?ev ?a1] =>
      pose proof (invoke_frame (SearchDocuments d) ev a1) as Hframe;
      pose proof (invoke_returns (SearchDocuments d) ev a1) as Hret;
      unfold exec, outcome in Hframe, Hret; simpl in Hframe, Hret;
      destruct (DocumentService.searchDocuments d ev a1) as [r a2]
  end.
  destruct a2 as [dk2 nw2 cs2 al2 au2 lg2 up2 sr2]. simpl in Hframe, Hret.
  destruct Hframe as (-> & -> & -> & -> & -> & ->).
  unfold_search; unfold_device; unfold_monad.
  destruct r as [data | e]; simpl; [| now left].
  destruct (Hret data eq_refl) as (tok & resp & Htok & Hserver & Hok & Hjson).
  destruct data; simpl; try (now left).
  destruct (Js.truthy (Js.assoc "success" fields)) eqn:Hsuccess; simpl; [| now left].
  destruct (Js.assoc "data" fields) as [| | | | | items |] eqn:Hdata; simpl; try (now left).
  right. exists tok, resp, (JObj fields).
  destruct (length items =? 0)%nat; simpl; auto 10.
Qed.

(** X18. An empty page is a notice, not an error. On a 2xx answer with a
    truthy [success] and a [data] array, [handleSearch] lists the array
    and shows the "No Results" alert exactly when the array is empty;
    a non-empty page is listed without any alert. *)
Theorem search_lists_the_page (env : Env) (a : App)
    (tok : string) (resp : Response) (fields : list (string * JsValue))
    (items : list JsValue) :
  disk a !! "userToken" = Some tok ->
  Js.nonempty tok = true ->
  storage_fault env (GetItem "userToken") = None ->
  server env (request_of (search_call (search a)) (JStr tok)) = Return resp ->
  ok resp = true ->
  json resp = Return (JObj fields) ->
  Js.truthy (Js.assoc "success" fields) = true ->
  Js.assoc "data" fields = JArr items ->
  let a' := exec SearchScreen.handleSearch env a in
  SearchForm.searchResults (search a') = items
  /\ alerts a'
     = match items with
       | [] => (alerts a
                ++ [("No Results", JStr "No documents found matching your criteria.")])%list
       | _ :: _ => alerts a
       end
  /\ network a' = (network a ++ [request_of (search_call (search a)) (JStr tok)])%list.
Proof.
  destruct a as [dk nw cs al au lg up [mj mn tg nt av fd td rs ld]].
  unfold search_call, request_of. simpl.
  intros Htok Hne Hread Hserver Hok Hjson Hsuccess Hdata.
  unfold exec, SearchScreen.handleSearch.
  unfold_services; unfold_device; unfold_search; unfold_monad. simpl.
  read_token Hread Htok Hne.
  rewrite Hserver. simpl. rewrite Hjson. simpl. rewrite Hok. simpl.
  rewrite Hsuccess, Hdata. simpl.
  destruct items; simpl; auto.
Qed.

Lemma search_lists_the_page_witness :
  let env := answering (json_response 200 (JObj [("success", JBool true);
                                                 ("data", JArr [])])) in
  let a' := exec SearchScreen.handleSearch env search_with_results in
  SearchForm.searchResults (search a') = []
  /\ alerts a' = [("No Results", JStr "No documents found matching your criteria.")]
  /\ network a'
     = [request_of (search_call (search search_with_results)) (JStr "abc")].
Proof.
  apply (search_lists_the_page
           (answering (json_response 200 (JObj [("success", JBool true); ("data", JArr [])])))
           search_with_results "abc"
           (json_response 200 (JObj [("success", JBool true); ("data", JArr [])]))
           [("success", JBool true); ("data", JArr [])] []);
    reflexivity.
Defined.

(** What [handleSearch] leaves alone, whatever happens. *)
Lemma handleSearch_frame (env : Env) (a : App) :
  let a' := exec SearchScreen.handleSearch env a in
  search_filters (search a') = search_filters (search a)
  /\ SearchForm.loading (search a') = false
  /\ (alerts a' = alerts a \/ exists alert, alerts a' = (alerts a ++ [alert])%list)
  /\ (network a' = network a
      \/ exists tok,
           disk a !! "userToken" = Some tok
           /\ network a'
              = (network a ++ [request_of (search_call (search a)) (JStr tok)])%list)
  /\ disk a' = disk a /\ auth a' = auth a /\ login a' = login a /\ upload a' = upload a.
Proof.
  destruct a as [dk nw cs al au lg up [mj mn tg nt av fd td rs ld]].
  unfold exec, SearchScreen.handleSearch, search_call, search_filters. unfold_monad. simpl.
  match goal with
  | |- context [DocumentService.searchDocuments ?d ?ev ?a1] =>
      pose proof (invoke_frame (SearchDocuments d) ev a1) as Hframe;
      pose proof (invoke_network (SearchDocuments d) ev a1) as Hnet;
      unfold exec in Hframe, Hnet; simpl in Hframe, Hnet;
      destruct (DocumentService.searchDocuments d ev a1) as [r a2]
  end.
  destruct a2 as [dk2 nw2 cs2 al2 au2 lg2 up2 sr2]. simpl in Hframe, Hnet.
  destruct Hframe as (-> & -> & -> & -> & -> & ->).
  assert (Hsent : nw2 = nw
                  \/ exists tok,
                       dk !! "userToken" = Some tok
                       /\ nw2 = (nw ++ [request_of
                            (SearchDocuments
                               (JObj [("major_head", JStr mj); ("minor_head", JStr mn);
                                      ("from_date", JStr (SearchScreen.date_filter fd));
                                      ("to_date", JStr (SearchScreen.date_filter td));
                                      ("tags", formattedTags tg);
                                      ("uploaded_by", JStr ""); ("start", JNum 0);
                                      ("length", JNum 10); ("filterId", JStr "");
                                      ("search", JObj [("value", JStr "")])]))
                            (JStr tok)])%list).
  { destruct Hnet as [Hnet | (tok & _ & Htok & _ & Hnet)];
      [left; exact Hnet | right; exists tok; split; assumption]. }
  clear Hnet. unfold_search; unfold_device; unfold_monad.
  destruct r as [data | e]; simpl.
  - destruct data; simpl;
      try (split; [reflexivity |]; split; [reflexivity |];
           split; [right; eexists; reflexivity |]; split; [exact Hsent |]; auto).
    destruct (Js.truthy (Js.assoc "success" fields)); simpl;
      [destruct (Js.assoc "data" fields) as [| | | | | items |]; simpl;
       try destruct (length items =? 0)%nat; simpl |];
      (split; [reflexivity |]; split; [reflexivity |];
       split; [first [left; reflexivity | right; eexists; reflexivity] |];
       split; [exact Hsent |]; auto).
  - split; [reflexivity |]; split; [reflexivity |];
      split; [right; eexists; reflexivity |]; split; [exact Hsent |]; auto.
Qed.

(** X19. A search never edits the filters. Whatever the environment
    does, [handleSearch] leaves both heads, the tags, the tag input,
    the tag catalogue and both dates as they were, ends with the busy
    flag off, shows at most one alert, sends at most one request (there
    is no validation: an empty form is searched as it is), and does not
    touch the store, the session or the other screens. *)
Theorem search_keeps_filters (env : Env) (a : App) :
  let a' := exec SearchScreen.handleSearch env a in
  search_filters (search a') = search_filters (search a)
  /\ SearchForm.loading (search a') = false
  /\ (alerts a' = alerts a \/ exists alert, alerts a' = (alerts a ++ [alert])%list)
  /\ (network a' = network a
      \/ exists tok,
           disk a !! "userToken" = Some tok
           /\ network a'
              = (network a ++ [request_of (search_call (search a)) (JStr tok)])%list)
  /\ disk a' = disk a /\ auth a' = auth a /\ login a' = login a /\ upload a' = upload a.
Proof. apply handleSearch_frame. Qed.

(** ** White space trimming *)

Lemma append_cons (c : ascii) (s t : string) : String c s +:+ t = String c (s +:+ t).
Proof. reflexivity. Qed.

Lemma append_nil_r (s : string) : s +:+ "" = s.
Proof. induction s as [| c s IH]; [reflexivity | now rewrite append_cons, IH]. Qed.

Lemma append_assoc (s1 s2 s3 : string) : s1 +:+ (s2 +:+ s3) = (s1 +:+ s2) +:+ s3.
Proof. induction s1 as [| c s1 IH]; [reflexivity | now rewrite !append_cons, IH]. Qed.

Lemma rev_app_append (s1 s2 : string) :
  String.rev_app s1 s2 = String.rev s1 +:+ s2.
Proof.
  unfold String.rev. revert s2. induction s1 as [| c s1 IH]; intros s2; simpl.
  - reflexivity.
  - rewrite IH, (IH (String c "")). rewrite <- append_assoc. reflexivity.
Qed.

Lemma rev_cons (c : ascii) (s : string) :
  String.rev (String c s) = String.rev s +:+ String c "".
Proof. unfold String.rev at 1. simpl. apply rev_app_append. Qed.

Lemma rev_append (s1 s2 : string) :
  String.rev (s1 +:+ s2) = String.rev s2 +:+ String.rev s1.
Proof.
  induction s1 as [| c s1 IH].
  - change ("" +:+ s2) with s2. change (String.rev "") with "".
    now rewrite append_nil_r.
  - rewrite append_cons, !rev_cons, IH. now rewrite append_assoc.
Qed.

Lemma rev_involutive (s : string) : String.rev (String.rev s) = s.
Proof.
  induction s as [| c s IH].
  - reflexivity.
  - rewrite rev_cons, rev_append, IH. reflexivity.
Qed.

Lemma trimStart_clean (s : string) : starts_clean (Js.trimStart s).
Proof.
  induction s as [| c s IH]; simpl; [exact I |].
  destruct (Js.is_space c) eqn:Hc; [exact IH | exact Hc].
Qed.

Lemma trimStart_id (s : string) : starts_clean s -> Js.trimStart s = s.
Proof. destruct s as [| c s]; simpl; [reflexivity |]. now intros ->. Qed.

Lemma trimStart_suffix (s : string) : exists p, s = p +:+ Js.trimStart s.
Proof.
  induction s as [| c s [p IH]]; simpl.
  - now exists "".
  - destruct (Js.is_space c).
    + exists (String c p). rewrite append_cons. now rewrite <- IH.
    + now exists "".
Qed.

Lemma trim_starts_clean (s : string) : starts_clean (Js.trim s).
Proof.
  unfold Js.trim.
  pose proof (trimStart_clean s) as Hu.
  destruct (trimStart_suffix (String.rev (Js.trimStart s))) as [p Hp].
  apply (f_equal String.rev) in Hp. rewrite rev_involutive, rev_append in Hp.
  destruct (String.rev (Js.trimStart (String.rev (Js.trimStart s)))) as [| c v]; [exact I |].
  rewrite Hp in Hu. exact Hu.
Qed.

Lemma trim_ends_clean (s : string) : starts_clean (String.rev (Js.trim s)).
Proof. unfold Js.trim. rewrite rev_involutive. apply trimStart_clean. Qed.

(** ** The tag editor *)

Lemma NoDup_snoc (l : list string) (x : string) :
  List.NoDup l -> ~ In x l -> List.NoDup (l ++ [x]).
Proof.
  induction l as [| y l IH]; intros Hnd Hx; simpl.
  - constructor; [intros [] | constructor].
  - inversion Hnd as [| ? ? Hy Hl]; subst. constructor.
    + rewrite in_app_iff. intros [H | [H | []]]; [contradiction |].
      subst. apply Hx. now left.
    + apply IH; [assumption |]. intros H. apply Hx. now right.
Qed.

Lemma includes_false (arr : list string) (x : string) :
  Js.includes arr x = false <-> ~ In x arr.
Proof.
  rewrite <- includes_In. destruct (Js.includes arr x); split; congruence.
Qed.

(** What each event does to the selection and to the input. *)
Lemma tag_step (sc : Screen) (ev : TagEvent) (env : Env) (a : App) :
  let a' := exec (tag_handler sc ev) env a in
  selected sc a'
  = match ev with
    | TypeTag _ => selected sc a
    | AddTag =>
        if Js.nonempty (Js.trim (tag_input sc a))
           && negb (Js.includes (selected sc a) (Js.trim (tag_input sc a)))
        then (selected sc a ++ [Js.trim (tag_input sc a)])%list
        else selected sc a
    | RemoveTag tag => Js.without (selected sc a) tag
    | PressSuggested tag =>
        if negb (Js.includes (selected sc a) tag)
        then (selected sc a ++ [tag])%list
        else selected sc a
    end
  /\ catalogue sc a' = catalogue sc a.
Proof.
  destruct sc, ev; unfold exec, tag_handler, selected, tag_input, catalogue;
    unfold_upload; unfold_search; unfold_monad; simpl;
    repeat (case_scrutinee; simpl); auto.
Qed.

Lemma tag_step_NoDup (sc : Screen) (ev : TagEvent) (env : Env) (a : App) :
  List.NoDup (selected sc a) ->
  List.NoDup (selected sc (exec (tag_handler sc ev) env a)).
Proof.
  intros Hnd. rewrite (proj1 (tag_step sc ev env a)). destruct ev.
  - exact Hnd.
  - destruct (Js.nonempty _); simpl; [| exact Hnd].
    destruct (Js.includes _ _) eqn:Hin; simpl; [exact Hnd |].
    apply NoDup_snoc; [exact Hnd | now apply includes_false].
  - unfold Js.without. now apply List.NoDup_filter.
  - destruct (Js.includes _ _) eqn:Hin; simpl; [exact Hnd |].
    apply NoDup_snoc; [exact Hnd | now apply includes_false].
Qed.

(** X20. The tag selection never holds a tag twice. On either screen,
    starting from a selection without repetition (the empty one of a
    fresh screen, in particular), no sequence of typing, adding,
    removing and pressing suggestions produces a repeated tag. *)
Theorem tag_selection_stays_distinct
    (sc : Screen) (env : Env) (events : list TagEvent) (a : App) :
  List.NoDup (selected sc a) ->
  List.NoDup (selected sc (replay_tags sc env events a)).
Proof.
  revert a. induction events as [| ev rest IH]; intros a Hnd; simpl.
  - exact Hnd.
  - apply IH. now apply tag_step_NoDup.
Qed.

Lemma tag_selection_stays_distinct_witness :
  List.NoDup (selected OnUpload
                (replay_tags OnUpload (answering bad_gateway)
                   [TypeTag "invoice"; AddTag; TypeTag " invoice "; AddTag;
                    PressSuggested "invoice"; PressSuggested "2024"]
                   (signed_in "abc"))).
Proof.
  apply (tag_selection_stays_distinct OnUpload (answering bad_gateway)
           [TypeTag "invoice"; AddTag; TypeTag " invoice "; AddTag;
            PressSuggested "invoice"; PressSuggested "2024"] (signed_in "abc")).
  simpl. constructor.
Defined.

Lemma trim_is_trimmed (s : string) : Js.nonempty (Js.trim s) = true -> trimmed (Js.trim s).
Proof.
  intros Hne. split; [| split].
  - intros H. rewrite H in Hne. discriminate.
  - apply trim_starts_clean.
  - apply trim_ends_clean.
Qed.

(** X21. Tags entered through the input are stored trimmed. On either
    screen, as long as tags come from the input only (typing, adding,
    removing; no suggestion pressed), every tag of the selection is
    non-empty and has no white space at its start or end: a blank input
    adds nothing, and a padded one is stored without the padding. *)
Theorem typed_tags_are_trimmed
    (sc : Screen) (env : Env) (events : list TagEvent) (a : App) :
  forallb is_typed events = true ->
  List.Forall trimmed (selected sc a) ->
  List.Forall trimmed (selected sc (replay_tags sc env events a)).
Proof.
  revert a. induction events as [| ev rest IH]; intros a Htyped Hall; simpl.
  - exact Hall.
  - simpl in Htyped. apply andb_true_iff in Htyped as [Hev Hrest].
    apply IH; [exact Hrest |]. rewrite (proj1 (tag_step sc ev env a)).
    destruct ev; try discriminate Hev.
    + exact Hall.
    + destruct (Js.nonempty _) eqn:Hne; simpl; [| exact Hall].
      destruct (Js.includes _ _); simpl; [exact Hall |].
      apply List.Forall_app. split; [exact Hall |].
      constructor; [now apply trim_is_trimmed | constructor].
    + unfold Js.without. rewrite List.Forall_forall in *.
      intros x Hx. apply List.filter_In in Hx as [Hx _]. now apply Hall.
Qed.

Lemma typed_tags_are_trimmed_witness :
  List.Forall trimmed
    (selected OnSearch
       (replay_tags OnSearch (answering bad_gateway)
          [TypeTag "  invoice "; AddTag; TypeTag "   "; AddTag; RemoveTag "x"]
          (signed_in "abc"))).
Proof.
  apply (typed_tags_are_trimmed OnSearch (answering bad_gateway)
           [TypeTag "  invoice "; AddTag; TypeTag "   "; AddTag; RemoveTag "x"]
           (signed_in "abc")).
  - reflexivity.
  - simpl. constructor.
Defined.

Lemma without_snoc_fresh (l : list string) (x : string) :
  ~ In x l -> Js.without (l ++ [x]) x = l.
Proof.
  intros Hx. unfold Js.without. rewrite List.filter_app. simpl.
  rewrite String.eqb_refl. simpl. rewrite app_nil_r.
  induction l as [| y l IH]; simpl; [reflexivity |].
  destruct (String.eqb_spec y x) as [-> | Hne]; simpl.
  - exfalso. apply Hx. now left.
  - f_equal. apply IH. intros H. apply Hx. now right.
Qed.

(** X22. Removing a chip removes that tag and nothing else: afterwards
    the tag is not selected, every other tag is selected exactly if it
    was, in the same order, and the catalogue is untouched. Removal
    undoes addition: adding a new tag through the input and then
    removing it gives back the selection one started from. *)
Theorem tag_removal (sc : Screen) (env : Env) (a : App) :
  (forall tag,
      let a' := exec (tag_handler sc (RemoveTag tag)) env a in
      ~ In tag (selected sc a')
      /\ (forall other, In other (selected sc a')
                        <-> In other (selected sc a) /\ other <> tag)
      /\ selected sc a' = List.filter (fun t => negb (String.eqb t tag)) (selected sc a)
      /\ catalogue sc a' = catalogue sc a)
  /\ (Js.nonempty (Js.trim (tag_input sc a)) = true ->
      ~ In (Js.trim (tag_input sc a)) (selected sc a) ->
      selected sc (replay_tags sc env [AddTag; RemoveTag (Js.trim (tag_input sc a))] a)
      = selected sc a).
Proof.
  split.
  - intros tag a'. unfold a'.
    destruct (tag_step sc (RemoveTag tag) env a) as [Hsel Hcat].
    rewrite Hsel, Hcat. unfold Js.without. repeat split.
    + intros H. apply List.filter_In in H as [_ H].
      rewrite String.eqb_refl in H. discriminate.
    + apply List.filter_In in H. tauto.
    + apply List.filter_In in H as [_ H]. intros ->.
      rewrite String.eqb_refl in H. discriminate.
    + intros [Hin Hne]. apply List.filter_In. split; [exact Hin |].
      destruct (String.eqb_spec other tag); [contradiction | reflexivity].
  - intros Hne Hfresh. simpl.
    rewrite (proj1 (tag_step sc (RemoveTag _) env _)).
    rewrite (proj1 (tag_step sc AddTag env a)).
    rewrite Hne. apply includes_false in Hfresh. rewrite Hfresh. simpl.
    apply without_snoc_fresh. now apply includes_false.
Qed.

Lemma tag_removal_witness :
  selected OnUpload
    (replay_tags OnUpload (answering bad_gateway) [AddTag; RemoveTag "march"]
       (exec (tag_handler OnUpload (TypeTag " march")) (answering bad_gateway) upload_filled))
  = ["invoice"].
Proof.
  apply (proj2 (tag_removal OnUpload (answering bad_gateway)
                  (exec (tag_handler OnUpload (TypeTag " march")) (answering bad_gateway)
                        upload_filled))).
  - reflexivity.
  - simpl. intros [H | []]. discriminate H.
Defined.



(** ** screens/UploadScreen.js: the category pickers over time *)

(** [handleSubmit] leaves the two heads as they were or empties both. *)
Lemma handleSubmit_heads (env : Env) (a : App) :
  let a' := exec UploadScreen.handleSubmit env a in
  (UploadForm.majorHead (upload a') = UploadForm.majorHead (upload a)
   /\ UploadForm.minorHead (upload a') = UploadForm.minorHead (upload a))
  \/ (UploadForm.majorHead (upload a') = "" /\ UploadForm.minorHead (upload a') = "").
Proof.
  destruct a as [dk nw cs al au lg [dd mj mn rk tg nt av sf ld] sr].
  unfold exec, UploadScreen.handleSubmit. unfold_device. unfold_monad. simpl.
  destruct (Js.truthy sf) eqn:Hfile; simpl; [| now left].
  destruct (Js.nonempty mj); simpl; [| now left].
  destruct (Js.nonempty mn); simpl; [| now left].
  destruct tg as [| tag tg]; simpl; [now left |].
  destruct sf; try discriminate Hfile; simpl.
  all: match goal with
       | |- context [DocumentService.uploadDocument ?u ?n ?t ?d ?ev ?a1] =>
           pose proof (invoke_frame (CreateDocument u n t d) ev a1) as Hframe;
           unfold exec in Hframe; simpl in Hframe;
           destruct (DocumentService.uploadDocument u n t d ev a1) as [r a2]
       end;
    destruct a2 as [dk2 nw2 cs2 al2 au2 lg2 up2 sr2]; simpl in Hframe;
    destruct Hframe as (-> & -> & -> & -> & -> & ->);
    unfold_upload; unfold_monad;
    destruct r as [data | e]; simpl; [| now left];
    destruct data; simpl; try (now left);
    match goal with
    | |- context [Js.truthy (Js.assoc "success" ?f)] =>
        destruct (Js.truthy (Js.assoc "success" f)); simpl
    end; [now right | now left].
Qed.

(** An incomplete form sends nothing. *)
Lemma unsubmittable_sends_nothing (env : Env) (a : App) :
  submittable (upload a) = false ->
  network (exec UploadScreen.handleSubmit env a) = network a.
Proof.
  unfold submittable. intros Hinvalid.
  unfold exec, UploadScreen.handleSubmit. unfold_device. unfold_monad. simpl.
  destruct (Js.truthy (UploadForm.selectedFile (upload a))); simpl in *; [| reflexivity].
  destruct (Js.nonempty (UploadForm.majorHead (upload a))); simpl in *; [| reflexivity].
  destruct (Js.nonempty (UploadForm.minorHead (upload a))); simpl in *; [| reflexivity].
  destruct (length (UploadForm.tags (upload a)) =? 0)%nat; simpl in *;
    [reflexivity | discriminate].
Qed.

Lemma upload_step_consistent (env : Env) (ev : UploadEvent) (a : App) :
  offered (upload a) ev = true ->
  category_consistent (upload a) ->
  category_consistent (upload (exec (upload_handler ev) env a)).
Proof.
  unfold category_consistent. intros Hoffered Hinv. destruct ev as [v | v | ev |].
  - left. apply (upload_major_change_clears_minor v env a).
  - unfold offered in Hoffered. apply andb_true_iff in Hoffered as [_ Hin].
    apply includes_In in Hin.
    unfold upload_handler, exec; unfold_upload; unfold_monad; simpl.
    destruct Hin as [<- | Hin]; [now left | now right].
  - destruct ev; unfold upload_handler, tag_handler, exec;
      unfold_upload; unfold_monad; simpl;
      repeat (case_scrutinee; simpl); exact Hinv.
  - destruct (handleSubmit_heads env a) as [[Hmajor Hminor] | [_ Hminor]].
    + unfold upload_handler. rewrite Hmajor, Hminor. exact Hinv.
    + left. exact Hminor.
Qed.

(** X24. On the upload screen the two category pickers stay in step.
    Starting from a form whose minor head is unset or belongs to its
    major head (a fresh form, in particular), after any sequence of
    picker changes, tag edits and submissions the minor head is still
    unset or one of the options of the current major head; hence a
    request the upload button sends never pairs a minor head with a
    major head it does not belong to. *)
Theorem upload_categories_stay_consistent
    (env : Env) (events : list UploadEvent) (a a' : App) :
  category_consistent (upload a) ->
  replay_upload env events a = Some a' ->
  category_consistent (upload a')
  /\ (network (exec UploadScreen.handleSubmit env a') <> network a' ->
      In (UploadForm.minorHead (upload a')) (minorHeadOptions (UploadForm.majorHead (upload a')))).
Proof.
  intros Hinv Hrun.
  assert (Hfinal : category_consistent (upload a')).
  { revert a Hinv Hrun. induction events as [| ev rest IH]; intros a Hinv Hrun; simpl in Hrun.
    - injection Hrun as <-. exact Hinv.
    - destruct (offered (upload a) ev) eqn:Hoffered; [| discriminate].
      apply (IH (exec (upload_handler ev) env a)); [| exact Hrun].
      now apply upload_step_consistent. }
  split; [exact Hfinal |].
  intros Hsent. destruct (submittable (upload a')) eqn:Hvalid.
  - unfold submittable in Hvalid.
    apply andb_true_iff in Hvalid as [Hvalid _].
    apply andb_true_iff in Hvalid as [_ Hminor].
    destruct Hfinal as [Hempty | Hin]; [| exact Hin].
    rewrite Hempty in Hminor. discriminate.
  - exfalso. apply Hsent. now apply unsubmittable_sends_nothing.
Qed.

Lemma upload_categories_stay_consistent_witness :
  exists a',
    replay_upload (answering bad_gateway)
      [PickMajor "Personal"; PickMinor "Tom"; PickMajor "Professional"] (signed_in "abc")
    = Some a'
    /\ category_consistent (upload a').
Proof.
  eexists. split; [reflexivity |].
  refine (proj1 (upload_categories_stay_consistent (answering bad_gateway)
                   [PickMajor "Personal"; PickMinor "Tom"; PickMajor "Professional"]
                   (signed_in "abc") _ _ _));
    [left; reflexivity | reflexivity].
Defined.

(** ** screens/PreviewScreen.js *)

Ltac unfold_ui :=
  unfold ui_exec, ui_outcome, lift, ui_update, ui_read, ui_ask, ui_settle,
         ui_try_catch, ui_try_finally,
         mbind, mret, mthrow, Ui_bind, Ui_ret, Ui_throw, M_bind, M_ret, M_throw in *.

Lemma after_last_dot_none (s : string) :
  JsString.has_dot s = false -> JsString.after_last_dot s = None.
Proof.
  induction s as [| c s IH]; simpl; [reflexivity |].
  intros H. apply orb_false_iff in H as [Hc Hs]. now rewrite (IH Hs), Hc.
Qed.

Lemma split_pop_last (base ext : string) :
  JsString.has_dot ext = false ->
  JsString.split_pop (base +:+ "." +:+ ext) = ext.
Proof.
  intros Hext. unfold JsString.split_pop.
  assert (H : JsString.after_last_dot (base +:+ "." +:+ ext) = Some ext).
  { induction base as [| c base IH].
    - change ("" +:+ "." +:+ ext) with (String "." ext). simpl.
      now rewrite (after_last_dot_none ext Hext).
    - rewrite append_cons. simpl. now rewrite IH. }
  now rewrite H.
Qed.

Lemma append_nonempty (base rest : string) :
  Js.nonempty (base +:+ "." +:+ rest) = true.
Proof. destruct base; reflexivity. Qed.

(** X25. The preview goes by the text after the last dot of the file
    URL, in lower case: for a document (not [null]) whose [file_url]
    ends in [.ext], the file extension is [ext] lowercased, whatever
    dots come earlier; a URL without any dot is its own extension; a
    missing or empty URL gives the empty extension. *)
Theorem preview_extension_is_last_segment (document : JsValue) (env : Env) (a : App) :
  Js.nullish document = false ->
  (forall base ext,
      member "file_url" document = JStr (base +:+ "." +:+ ext) ->
      JsString.has_dot ext = false ->
      outcome (PreviewScreen.fileExtension document) env a
      = Return (JsString.toLowerCase ext))
  /\ (forall url,
         member "file_url" document = JStr url ->
         JsString.has_dot url = false ->
         outcome (PreviewScreen.fileExtension document) env a
         = Return (JsString.toLowerCase url))
  /\ (Js.truthy (member "file_url" document) = false ->
      outcome (PreviewScreen.fileExtension document) env a = Return "").
Proof.
  intros Hdoc.
  assert (Hprop : forall k env' a', prop document k env' a' = (Return (member k document), a')).
  { intros k env' a'. destruct document; try discriminate Hdoc; reflexivity. }
  unfold outcome, PreviewScreen.fileExtension. unfold_monad. rewrite Hprop.
  split; [| split].
  - intros base ext Hurl Hext. rewrite Hurl. simpl.
    pose proof (append_nonempty base ext) as Hne. unfold Js.nonempty in Hne.
    rewrite Hne. simpl. now rewrite split_pop_last.
  - intros url Hurl Hdot. rewrite Hurl. simpl.
    unfold JsString.split_pop. rewrite (after_last_dot_none url Hdot).
    destruct url; reflexivity.
  - intros Hfalsy. now rewrite Hfalsy.
Qed.

Lemma preview_extension_witness :
  outcome (PreviewScreen.fileExtension scan_record) (answering bad_gateway) signed_out
  = Return "pdf".
Proof.
  exact (proj1 (preview_extension_is_last_segment scan_record (answering bad_gateway)
                  signed_out eq_refl)
               "https://files.example.com/docs/Scan.March" "PDF" eq_refl eq_refl).
Defined.


(** X27. Without a file URL nothing is downloaded: for a document
    (not [null]) whose [file_url] is missing or empty, [handleDownload]
    shows the one alert "File URL is missing. Cannot download." and
    changes nothing else: no download is started and the busy flag is
    not touched. *)
Theorem download_needs_a_url (document : JsValue) (host : Host) (s : Screens) :
  Js.nullish document = false ->
  Js.truthy (member "file_url" document) = false ->
  ui_exec (PreviewScreen.handleDownload document) host s
  = with_app (with_alerts
                (fun l => (l ++ [("Error", JStr "File URL is missing. Cannot download.")])%list))
             s.
Proof.
  intros Hdoc Hfalsy.
  assert (Hprop : forall k env' a', prop document k env' a' = (Return (member k document), a')).
  { intros k env' a'. destruct document; try discriminate Hdoc; reflexivity. }
  unfold PreviewScreen.handleDownload, PreviewScreen.fileExtension.
  unfold_ui. unfold Alert_alert, update. rewrite !Hprop. rewrite Hfalsy. simpl.
  rewrite !Hprop. rewrite Hfalsy. simpl.
  destruct s as [[dk nw cs al au lg up sr] p1 p2 p3 dl ds]. reflexivity.
Qed.

Lemma download_needs_a_url_witness :
  ui_exec (PreviewScreen.handleDownload (JObj [("document_name", JStr "scan.pdf")]))
          (phone Android (Return (mkDownloadResult 200 10))) (screens_of signed_out)
  = with_app (with_alerts
                (fun l => (l ++ [("Error", JStr "File URL is missing. Cannot download.")])%list))
             (screens_of signed_out).
Proof.
  apply (download_needs_a_url (JObj [("document_name", JStr "scan.pdf")])
           (phone Android (Return (mkDownloadResult 200 10))) (screens_of signed_out));
    reflexivity.
Defined.



(** ** screens/SearchScreen.js: the date filters over time *)

Lemma search_step_dates (host : Host) (ev : SearchEvent) (s : Screens) :
  let s' := ui_exec (search_handler ev) host s in
  (SearchForm.fromDate (search (app s)) <> None ->
   SearchForm.fromDate (search (app s')) <> None)
  /\ (SearchForm.toDate (search (app s)) <> None ->
      SearchForm.toDate (search (app s')) <> None).
Proof.
  destruct ev as [d | d | | | v | v | ev |]; simpl.
  - unfold Pickers.onFromDateChange, Pickers.setFromDate. unfold_ui. unfold update. simpl.
    split; [| auto]. destruct d; [discriminate | auto].
  - unfold Pickers.onToDateChange, Pickers.setToDate. unfold_ui. unfold update. simpl.
    split; [auto |]. destruct d; [discriminate | auto].
  - unfold_ui. simpl. auto.
  - unfold_ui. simpl. auto.
  - unfold_ui. unfold_search. unfold_monad. simpl. auto.
  - unfold_ui. unfold_search. unfold_monad. simpl. auto.
  - unfold ui_exec, lift.
    destruct ev; unfold tag_handler; unfold_search; unfold_monad; simpl;
      repeat (case_scrutinee; simpl); auto.
  - unfold ui_exec, lift.
    pose proof (handleSearch_frame (base host) (app s)) as [Hfilters _].
    unfold exec, search_filters in Hfilters.
    destruct (SearchScreen.handleSearch (base host) (app s)) as [r a']. simpl in *.
    injection Hfilters as _ _ _ _ _ Hfrom Hto. rewrite Hfrom, Hto. auto.
Qed.

(** X29. A date filter, once set, cannot be cleared. On the search
    screen no sequence of picker answers (a dismissed picker included),
    picker openings, head changes, tag edits and searches turns a set
    "from" or "to" date back into "no date": a dismissed picker keeps
    the date, a confirmed one replaces it, and nothing else writes it. *)
Theorem search_dates_cannot_be_cleared
    (host : Host) (events : list SearchEvent) (s : Screens) :
  let s' := replay_search host events s in
  (SearchForm.fromDate (search (app s)) <> None ->
   SearchForm.fromDate (search (app s')) <> None)
  /\ (SearchForm.toDate (search (app s)) <> None ->
      SearchForm.toDate (search (app s')) <> None).
Proof.
  revert s. induction events as [| ev rest IH]; intros s; simpl.
  - auto.
  - destruct (search_step_dates host ev s) as [Hfrom Hto].
    destruct (IH (ui_exec (search_handler ev) host s)) as [IHfrom IHto].
    split; auto.
Qed.

Lemma search_dates_cannot_be_cleared_witness :
  SearchForm.fromDate
    (search (app (replay_search (phone Android (Return (mkDownloadResult 200 0)))
                    [OpenFromPicker; FromDateChange None; RunSearch;
                     PickMajorFilter "Professional"]
                    (screens_of search_with_results))))
  <> None.
Proof.
  apply (proj1 (search_dates_cannot_be_cleared
                  (phone Android (Return (mkDownloadResult 200 0)))
                  [OpenFromPicker; FromDateChange None; RunSearch;
                   PickMajorFilter "Professional"]
                  (screens_of search_with_results))).
  simpl. discriminate.
Defined.

(** ** screens/UploadScreen.js: choosing the file and the date *)

(** X30. What the pickers do to the selected file. When the document
    picker is cancelled, [handleFilePick] changes nothing at all and
    shows nothing; when it fails otherwise, the file stays, the error is
    logged and one alert is shown. When it resolves, the selected file
    becomes the first entry of what it resolved to, without a test of
    the length: an empty list leaves [undefined] as the selected file.
    [handleCameraCapture] does test: when the camera is cancelled or
    hands back no asset it changes nothing, otherwise the first asset
    becomes the selected file; when the camera fails, the file stays,
    the error is logged and one alert is shown. A dismissed date picker
    keeps the document date. *)
Theorem pickers_set_selected_file (host : Host) (s : Screens) :
  (forall e,
      pick host = Throw e ->
      let s' := ui_exec Pickers.handleFilePick host s in
      UploadForm.selectedFile (upload (app s')) = UploadForm.selectedFile (upload (app s))
      /\ (isCancel host e = true -> s' = s)
      /\ (isCancel host e = false ->
          alerts (app s')
          = (alerts (app s)
             ++ [("Error", JStr "Failed to pick document. Please try again.")])%list
          /\ console (app s') = (console (app s) ++ [("DocumentPicker Error:", e)])%list))
  /\ (forall res,
         pick host = Return res ->
         let s' := ui_exec Pickers.handleFilePick host s in
         UploadForm.selectedFile (upload (app s'))
         = match res with
           | file :: _ => file
           | [] => JUndefined
           end
         /\ alerts (app s') = alerts (app s)
         /\ console (app s') = console (app s))
  /\ (forall shot,
         launchCamera host = Return shot ->
         let s' := ui_exec Pickers.handleCameraCapture host s in
         match didCancel shot, assets shot with
         | false, Some (first :: _) =>
             UploadForm.selectedFile (upload (app s')) = first
             /\ alerts (app s') = alerts (app s)
         | _, _ => s' = s
         end)
  /\ (forall e,
         launchCamera host = Throw e ->
         let s' := ui_exec Pickers.handleCameraCapture host s in
         UploadForm.selectedFile (upload (app s')) = UploadForm.selectedFile (upload (app s))
         /\ alerts (app s')
            = (alerts (app s)
               ++ [("Error",
                    JStr "Failed to capture image. Please check camera permissions.")])%list
         /\ console (app s') = (console (app s) ++ [("Camera capture error:", e)])%list)
  /\ UploadForm.documentDate (upload (app (ui_exec (Pickers.onDateChange None) host s)))
     = UploadForm.documentDate (upload (app s)).
Proof.
  destruct s as [[dk nw cs al au lg up sr] p1 p2 p3 dl ds].
  unfold Pickers.handleFilePick, Pickers.handleCameraCapture, Pickers.onDateChange,
         Pickers.DocumentPicker_pick, Pickers.launchCamera_photo.
  unfold_ui. unfold_upload. unfold_device. unfold update. simpl.
  split; [| split; [| split; [| split]]].
  - intros e He. rewrite He. simpl.
    destruct (isCancel host e); simpl; repeat split; auto; discriminate.
  - intros res Hpick. rewrite Hpick. repeat split; reflexivity.
  - intros shot Hshot. rewrite Hshot. simpl.
    destruct (didCancel shot); simpl; [reflexivity |].
    destruct (assets shot) as [[| first rest] |]; try reflexivity.
    split; reflexivity.
  - intros e He. rewrite He. repeat split; reflexivity.
  - reflexivity.
Qed.

Lemma pickers_set_selected_file_witness :
  ui_exec Pickers.handleFilePick (phone IOS (Return (mkDownloadResult 200 0)))
          (screens_of upload_filled)
  = screens_of upload_filled.
Proof.
  apply (proj1 (proj2 (proj1 (pickers_set_selected_file
                                (phone IOS (Return (mkDownloadResult 200 0)))
                                (screens_of upload_filled))
                             cancel_error eq_refl))).
  reflexivity.
Defined.
